(** * Pressure dynamics of hologram-cognitive (hologram/pressure.py)

    A shallow embedding of the pressure "physics": activation, propagation
    along edges, decay, conservation correction and statistics.

    Modelling choices.
    - A Python [float] is idealised as an exact rational ([Q]); rounding
      is not modelled.  Comparisons are the rational order, [x == 0.0] is
      [Qeq_bool].
    - A [Dict[str, _]] is a [gmap string _]; [d.items()] is [map_to_list d],
      a [Set[str]] is a [gset string] iterated through [elements].
    - The mutable [CognitiveFile] objects held by the file map are modelled
      by re-inserting the updated record under its key.
    - Python exceptions are values of [exn]; a fallible function returns
      a [result].
    - The optional [config] argument is always passed: a call that leaves
      it out is a call with [default_config]. *)

From Stdlib Require Import QArith Qminmax Qabs Qround Lqa ZArith Lia.
From stdpp Require Import gmap strings list fin_maps.

Local Open Scope Q_scope.

(** ** Exceptions and results *)

Inductive exn : Type :=
| ZeroDivisionError
| KeyError (key : string)
| ValueError.

Inductive result (A : Type) : Type :=
| Ok (a : A)
| Raise (e : exn).

Arguments Ok {A} a.
Arguments Raise {A} e.

#[global] Instance result_ret : MRet result := fun A a => Ok a.
#[global] Instance result_bind : MBind result := fun A B f m =>
  match m with
  | Ok a => f a
  | Raise e => Raise e
  end.

(** A [for] loop whose body may raise. *)
Fixpoint foldM {S A : Type} (body : S -> A -> result S) (s : S) (l : list A)
  : result S :=
  match l with
  | [] => Ok s
  | a :: l' =>
      match body s a with
      | Ok s' => foldM body s' l'
      | Raise e => Raise e
      end
  end.

(** ** Python arithmetic on floats and lengths *)

(** [x < y] on floats. *)
Definition Qltb (x y : Q) : bool :=
  match x ?= y with
  | Lt => true
  | _ => false
  end.

(** [float(len(...))]. *)
Definition len_Q (n : nat) : Q := inject_Z (Z.of_nat n).

(** [x / y]: float division raises [ZeroDivisionError] on a zero divisor. *)
Definition py_div (x y : Q) : result Q :=
  if Qeq_bool y 0 then Raise ZeroDivisionError else Ok (x / y).

(** [sum(xs)]: left to right, starting from 0. *)
Definition py_sum (xs : list Q) : Q := foldl Qplus 0 xs.

(** [max(xs)] and [min(xs)] on a sequence: [ValueError] when it is empty;
    the first extremal element is kept. *)
Definition py_max (xs : list Q) : result Q :=
  match xs with
  | [] => Raise ValueError
  | x :: xs' => Ok (foldl Qmax x xs')
  end.

Definition py_min (xs : list Q) : result Q :=
  match xs with
  | [] => Raise ValueError
  | x :: xs' => Ok (foldl Qmin x xs')
  end.

(** ** Data model *)

(** Modelled from the spec: the [CognitiveFile] dataclass lives in
    hologram/system.py, which is absent; its fields are those of the
    spec's FileNode (section 3) and of the constructor calls in
    tests/test_basin_dynamics.py. *)
Record CognitiveFile : Type := {
  path : string;
  raw_pressure : Q;
  pressure_bucket : Z;
  last_activated : Z;
  activation_count : Z;
  consecutive_hot_turns : Z;
  basin_depth : Q;
  last_resurrected : Z
}.

Record PressureConfig : Type := {
  activation_boost : Q;
  edge_flow_rate : Q;
  flow_decay_per_hop : Q;
  max_propagation_hops : Z;
  decay_rate : Q;
  decay_immunity_turns : Z;
  enable_conservation : bool;
  total_pressure_budget : Q;
  hot_propagates : bool;
  min_pressure_to_propagate : Q
}.

(** [PressureConfig()] *)
Definition default_config : PressureConfig := {|
  activation_boost := 4 # 10;
  edge_flow_rate := 15 # 100;
  flow_decay_per_hop := 7 # 10;
  max_propagation_hops := 2;
  decay_rate := 85 # 100;
  decay_immunity_turns := 2;
  enable_conservation := true;
  total_pressure_budget := 10;
  hot_propagates := true;
  min_pressure_to_propagate := 8 # 10
|}.

Record PressureStats : Type := {
  total_pressure : Q;
  avg_pressure : Q;
  max_pressure : Q;
  min_pressure : Q;
  hot_count : Z;
  warm_count : Z;
  cold_count : Z
}.

(** ** Sample data

    Concrete inputs on which the general statements are run.  The
    quantizer of hologram/coordinates.py is absent; [quantize_48] is a
    stand-in with 48 buckets that agrees with the buckets written out in
    the tests (0.85 in bucket 40, 0.7 in bucket 33). *)

Definition quantize_48 (p : Q) : Z :=
  Z.min (Qfloor (Qmax 0 (Qmin 1 p) * 48)) 47.

Definition mk_file (p : string) (pressure : Q) (activated : Z) (depth : Q)
  : CognitiveFile := {|
  path := p;
  raw_pressure := pressure;
  pressure_bucket := quantize_48 pressure;
  last_activated := activated;
  activation_count := 0;
  consecutive_hot_turns := 0;
  basin_depth := depth;
  last_resurrected := 0
|}.

(** Three files at zero pressure. *)
Definition zero3 : gmap string CognitiveFile :=
  <["a" := mk_file "a" 0 0 1]>
    (<["b" := mk_file "b" 0 0 1]> (<["c" := mk_file "c" 0 0 1]> ∅)).

(** One hot and one cold file. *)
Definition skew2 : gmap string CognitiveFile :=
  <["a" := mk_file "a" (9 # 10) 0 1]> (<["b" := mk_file "b" (1 # 10) 0 1]> ∅).

(** Two files at half pressure. *)
Definition half2 : gmap string CognitiveFile :=
  <["a" := mk_file "a" (1 # 2) 0 1]> (<["b" := mk_file "b" (1 # 2) 0 1]> ∅).

(** One file that the rescaling clamps, two that it does not. *)
Definition clamp3 : gmap string CognitiveFile :=
  <["a" := mk_file "a" (9 # 10) 0 1]>
    (<["b" := mk_file "b" (1 # 10) 0 1]> (<["c" := mk_file "c" (1 # 10) 0 1]> ∅)).

(** Two files above the propagation threshold. *)
Definition hot2 : gmap string CognitiveFile :=
  <["a" := mk_file "a" (9 # 10) 0 1]> (<["b" := mk_file "b" (85 # 100) 0 1]> ∅).

(** A cold and a hot file. *)
Definition lean2 : gmap string CognitiveFile :=
  <["a" := mk_file "a" (1 # 10) 0 1]> (<["b" := mk_file "b" (9 # 10) 0 1]> ∅).

(** Two files below the propagation threshold. *)
Definition cold2 : gmap string CognitiveFile :=
  <["a" := mk_file "a" (1 # 10) 0 1]> (<["b" := mk_file "b" (1 # 2) 0 1]> ∅).

(** The two files of test_basin_stickiness, plus one activated at turn 9. *)
Definition basin3 : gmap string CognitiveFile :=
  <["shallow.md" := mk_file "shallow.md" (9 # 10) 0 1]>
    (<["deep.md" := mk_file "deep.md" (9 # 10) 0 (25 # 10)]>
       (<["fresh.md" := mk_file "fresh.md" (9 # 10) 9 1]> ∅)).

(** [a -> {b, zz}] and [b -> {a}], where [zz] is not a registered file. *)
Definition edges_mixed : gmap string (gset string) :=
  <["a" := {["b"; "zz"]}]> (<["b" := {["a"]}]> ∅).

(** [a -> {b}] only. *)
Definition edges_ab : gmap string (gset string) :=
  <["a" := {["b"]}]> ∅.

(** [a -> {zz}] and [b -> {a}]: the targets of [a] are all unregistered,
    those of [b] all registered. *)
Definition edges_split : gmap string (gset string) :=
  <["a" := {["zz"]}]> (<["b" := {["a"]}]> ∅).

(** [PressureConfig(enable_conservation=False)] *)
Definition free_config : PressureConfig := {|
  activation_boost := 4 # 10;
  edge_flow_rate := 15 # 100;
  flow_decay_per_hop := 7 # 10;
  max_propagation_hops := 2;
  decay_rate := 85 # 100;
  decay_immunity_turns := 2;
  enable_conservation := false;
  total_pressure_budget := 10;
  hot_propagates := true;
  min_pressure_to_propagate := 8 # 10
|}.

(** [PressureConfig(hot_propagates=False)] *)
Definition ungated_config : PressureConfig := {|
  activation_boost := 4 # 10;
  edge_flow_rate := 15 # 100;
  flow_decay_per_hop := 7 # 10;
  max_propagation_hops := 2;
  decay_rate := 85 # 100;
  decay_immunity_turns := 2;
  enable_conservation := true;
  total_pressure_budget := 10;
  hot_propagates := false;
  min_pressure_to_propagate := 8 # 10
|}.

(** [PressureConfig(total_pressure_budget=1.5)] *)
Definition small_budget_config : PressureConfig := {|
  activation_boost := 4 # 10;
  edge_flow_rate := 15 # 100;
  flow_decay_per_hop := 7 # 10;
  max_propagation_hops := 2;
  decay_rate := 85 # 100;
  decay_immunity_turns := 2;
  enable_conservation := true;
  total_pressure_budget := 15 # 10;
  hot_propagates := true;
  min_pressure_to_propagate := 8 # 10
|}.

(** [PressureConfig(total_pressure_budget=1.0)] *)
Definition unit_budget_config : PressureConfig := {|
  activation_boost := 4 # 10;
  edge_flow_rate := 15 # 100;
  flow_decay_per_hop := 7 # 10;
  max_propagation_hops := 2;
  decay_rate := 85 # 100;
  decay_immunity_turns := 2;
  enable_conservation := true;
  total_pressure_budget := 1;
  hot_propagates := true;
  min_pressure_to_propagate := 8 # 10
|}.

(** ** Tactics for concrete inputs *)

(** Case analysis on the entries of a concrete file map. *)
Ltac lookup_cases H :=
  apply elem_of_map_to_list in H;
  match type of H with
  | _ ∈ map_to_list ?m =>
      let l := eval vm_compute in (map_to_list m) in
      replace (map_to_list m) with l in H by (vm_compute; reflexivity)
  end;
  repeat (apply elem_of_cons in H as [H|H];
          [injection H as -> ->|]);
  try (by apply elem_of_nil in H).

Ltac run := vm_compute; reflexivity.

Ltac non_empty := apply map_size_non_empty_iff; vm_compute; discriminate.

Section Pressure.

(** [quantize_pressure] and [HOT_THRESHOLD] are imported from
    hologram/coordinates.py, which is absent: they are parameters of the
    development. *)
Variable quantize_pressure : Q -> Z.
Variable HOT_THRESHOLD : Z.

(** The two assignments that always come together in pressure.py:
    [f.raw_pressure = p; f.pressure_bucket = quantize_pressure(f.raw_pressure)]. *)
Definition set_pressure (f : CognitiveFile) (p : Q) : CognitiveFile := {|
  path := path f;
  raw_pressure := p;
  pressure_bucket := quantize_pressure p;
  last_activated := last_activated f;
  activation_count := activation_count f;
  consecutive_hot_turns := consecutive_hot_turns f;
  basin_depth := basin_depth f;
  last_resurrected := last_resurrected f
|}.

(** The file map together with the [deltas] dict a function is building. *)
Definition State : Type := gmap string CognitiveFile * gmap string Q.

(** *** apply_activation *)

(** Body of the drain loop (pressure.py lines 79-83). *)
Definition drain_file (drain_per_file : Q) (st : State) (p : string)
  : result State :=
  let '(files, deltas) := st in
  match files !! p with
  | None => Raise (KeyError p)
  | Some f =>
      let old := raw_pressure f in
      let f' := set_pressure f (Qmax 0 (old - drain_per_file)) in
      Ok (<[p := f']> files, <[p := raw_pressure f' - old]> deltas)
  end.

(** Body of the boost loop (lines 86-91). *)
Definition boost_file (config : PressureConfig) (st : State) (p : string)
  : State :=
  let '(files, deltas) := st in
  match files !! p with
  | None => st
  | Some f =>
      let old := raw_pressure f in
      let f' := set_pressure f (Qmin 1 (old + activation_boost config)) in
      (<[p := f']> files, <[p := raw_pressure f' - old]> deltas)
  end.

(** [[p for p in files if p not in activated_paths]] *)
Definition non_activated_paths (files : gmap string CognitiveFile)
    (activated_paths : list string) : list string :=
  filter (fun p => p ∉ activated_paths) (map_to_list files).*1.

(** The conservation block (lines 74-83). *)
Definition drain_non_activated (files : gmap string CognitiveFile)
    (activated_paths : list string) (config : PressureConfig)
    (total_boost : Q) : result State :=
  if enable_conservation config then
    let non_activated := non_activated_paths files activated_paths in
    match non_activated with
    | [] => Ok (files, ∅)
    | _ :: _ =>
        drain_per_file ← py_div total_boost (len_Q (length non_activated));
        foldM (drain_file drain_per_file) (files, ∅) non_activated
    end
  else Ok (files, ∅).

Definition apply_activation (files : gmap string CognitiveFile)
    (activated_paths : list string) (config : PressureConfig)
  : result State :=
  match activated_paths with
  | [] => Ok (files, ∅)
  | _ :: _ =>
      let total_boost :=
        len_Q (length activated_paths) * activation_boost config in
      st ← drain_non_activated files activated_paths config total_boost;
      Ok (foldl (boost_file config) st activated_paths)
  end.

(** *** propagate_pressure *)

(** [deltas[k] += x] on a [defaultdict(float)]. *)
Definition add_delta (deltas : gmap string Q) (k : string) (x : Q)
  : gmap string Q :=
  <[k := default 0 (deltas !! k) + x]> deltas.

(** [deltas[k] -= x] on a [defaultdict(float)]. *)
Definition sub_delta (deltas : gmap string Q) (k : string) (x : Q)
  : gmap string Q :=
  <[k := default 0 (deltas !! k) - x]> deltas.

(** Lines 143-145: the weight of edge [src -> target]. *)
Definition edge_weight (edge_weights : option (gmap string (gmap string Q)))
    (src target : string) : Q :=
  match edge_weights with
  | None => 1
  | Some ew =>
      if bool_decide (size ew = 0%nat) then 1
      else match ew !! src with
           | None => 1
           | Some row => default 1 (row !! target)
           end
  end.

(** Body of the loop over the targets of one source (lines 138-154). *)
Definition send_flow (files : gmap string CognitiveFile)
    (edge_weights : option (gmap string (gmap string Q)))
    (config : PressureConfig) (src : string) (base_flow : Q)
    (deltas : gmap string Q) (target_path : string) : gmap string Q :=
  match files !! target_path with
  | None => deltas
  | Some _ =>
      let weight := edge_weight edge_weights src target_path in
      let flow := base_flow * weight in
      let deltas := add_delta deltas target_path flow in
      if enable_conservation config then sub_delta deltas src flow
      else deltas
  end.

(** [adjacency.get(path, set())] *)
Definition outgoing_of (adjacency : gmap string (gset string)) (src : string)
  : gset string :=
  default ∅ (adjacency !! src).

(** Body of the loop over the sources (lines 122-154). *)
Definition propagate_from (files : gmap string CognitiveFile)
    (adjacency : gmap string (gset string))
    (edge_weights : option (gmap string (gmap string Q)))
    (config : PressureConfig)
    (deltas : gmap string Q) (item : string * CognitiveFile)
  : result (gmap string Q) :=
  let '(src, file) := item in
  if hot_propagates config
     && Qltb (raw_pressure file) (min_pressure_to_propagate config)
  then Ok deltas
  else
    let outgoing := outgoing_of adjacency src in
    if bool_decide (size outgoing = 0%nat) then Ok deltas
    else
      base_flow ←
        (if bool_decide (1 < size outgoing)%nat
         then py_div (edge_flow_rate config) (len_Q (size outgoing))
         else Ok (edge_flow_rate config));
      Ok (foldl (send_flow files edge_weights config src base_flow)
                deltas (elements outgoing)).

(** Body of the final pass (lines 157-161). *)
Definition apply_delta (files : gmap string CognitiveFile)
    (item : string * Q) : gmap string CognitiveFile :=
  let '(p, delta) := item in
  match files !! p with
  | None => files
  | Some f =>
      let old := raw_pressure f in
      <[p := set_pressure f (Qmax 0 (Qmin 1 (old + delta)))]> files
  end.

Definition propagate_pressure (files : gmap string CognitiveFile)
    (adjacency : gmap string (gset string))
    (edge_weights : option (gmap string (gmap string Q)))
    (config : PressureConfig) : result State :=
  deltas ← foldM (propagate_from files adjacency edge_weights config)
                 ∅ (map_to_list files);
  Ok (foldl apply_delta files (map_to_list deltas), deltas).

(** *** apply_decay *)

(** Body of the decay loop (lines 189-198). *)
Definition decay_file (current_turn : Z) (config : PressureConfig)
    (st : State) (item : string * CognitiveFile) : State :=
  let '(files, deltas) := st in
  let '(p, file) := item in
  let turns_since_active := (current_turn - last_activated file)%Z in
  if (turns_since_active <? decay_immunity_turns config)%Z then st
  else
    let old := raw_pressure file in
    let file' := set_pressure file (raw_pressure file * decay_rate config) in
    (<[p := file']> files, <[p := raw_pressure file' - old]> deltas).

Definition apply_decay (files : gmap string CognitiveFile)
    (current_turn : Z) (config : PressureConfig) : State :=
  foldl (decay_file current_turn config) (files, ∅) (map_to_list files).

(** *** redistribute_pressure *)

(** [sum(f.raw_pressure for f in files.values())] *)
Definition total_raw_pressure (files : gmap string CognitiveFile) : Q :=
  py_sum (raw_pressure <$> (map_to_list files).*2).

(** [for file in files.values(): file.raw_pressure = g(file); ...bucket...] *)
Definition update_all (g : CognitiveFile -> Q)
    (files : gmap string CognitiveFile) : gmap string CognitiveFile :=
  foldl (fun fs item => <[item.1 := set_pressure item.2 (g item.2)]> fs)
        files (map_to_list files).

Definition redistribute_pressure (files : gmap string CognitiveFile)
    (config : PressureConfig) : result (gmap string CognitiveFile) :=
  if negb (enable_conservation config) then Ok files
  else
    let current_total := total_raw_pressure files in
    if Qeq_bool current_total 0 then
      even_pressure ←
        py_div (total_pressure_budget config) (len_Q (size files));
      Ok (update_all (fun _ => even_pressure) files)
    else
      scale ← py_div (total_pressure_budget config) current_total;
      Ok (update_all (fun file => Qmin 1 (raw_pressure file * scale)) files).

(** *** get_pressure_stats *)

(** [sum(1 for f in files.values() if cond(f))] *)
Definition count_files (cond : CognitiveFile -> bool)
    (files : gmap string CognitiveFile) : Z :=
  Z.of_nat (length (filter (fun f => cond f = true) (map_to_list files).*2)).

Definition get_pressure_stats (files : gmap string CognitiveFile)
  : result PressureStats :=
  let pressures := raw_pressure <$> (map_to_list files).*2 in
  let hot := count_files (fun f => (HOT_THRESHOLD <=? pressure_bucket f)%Z)
                         files in
  let warm := count_files (fun f => (20 <=? pressure_bucket f)%Z
                                     && (pressure_bucket f <? HOT_THRESHOLD)%Z)
                          files in
  let cold := (Z.of_nat (size files) - hot - warm)%Z in
  avg ← (match pressures with
         | [] => Ok 0
         | _ :: _ => py_div (py_sum pressures) (len_Q (length pressures))
         end);
  mx ← (match pressures with [] => Ok 0 | _ :: _ => py_max pressures end);
  mn ← (match pressures with [] => Ok 0 | _ :: _ => py_min pressures end);
  Ok {| total_pressure := py_sum pressures;
        avg_pressure := avg;
        max_pressure := mx;
        min_pressure := mn;
        hot_count := hot;
        warm_count := warm;
        cold_count := cold |}.


(** ** Vocabulary for the statements *)

(** A file inside the immunity window (line 192). *)
Definition immune (current_turn : Z) (config : PressureConfig)
    (f : CognitiveFile) : Prop :=
  (current_turn - last_activated f < decay_immunity_turns config)%Z.

#[local] Instance immune_dec t config f : Decision (immune t config f).
Proof. unfold immune. apply _. Defined.

(** What the loop body does to a file that is not immune. *)
Definition decayed (config : PressureConfig) (f : CognitiveFile)
  : CognitiveFile :=
  set_pressure f (raw_pressure f * decay_rate config).

(** What the drain loop does to a non-activated file. *)
Definition drained (drain_per_file : Q) (f : CognitiveFile) : CognitiveFile :=
  set_pressure f (Qmax 0 (raw_pressure f - drain_per_file)).

(** What one pass of the boost loop does to an activated file. *)
Definition boosted (config : PressureConfig) (f : CognitiveFile)
  : CognitiveFile :=
  set_pressure f (Qmin 1 (raw_pressure f + activation_boost config)).

(** Number of times [p] is listed in [l]. *)
Definition occurrences (p : string) (l : list string) : nat :=
  length (filter (fun x => x = p) l).

(** The drain each non-activated file is charged (lines 72 and 78). *)
Definition drain_share (files : gmap string CognitiveFile)
    (activated_paths : list string) (config : PressureConfig) : Q :=
  len_Q (length activated_paths) * activation_boost config
  / len_Q (length (non_activated_paths files activated_paths)).

(** An activation list with the unregistered ids removed. *)
Definition known_paths (files : gmap string CognitiveFile)
    (l : list string) : list string :=
  filter (fun p => is_Some (files !! p)) l.

(** The bucket of a file is the quantization of its pressure. *)
Definition bucket_consistent (files : gmap string CognitiveFile) : Prop :=
  forall p f, files !! p = Some f ->
    pressure_bucket f = quantize_pressure (raw_pressure f).

(** Every pressure is in [0, 1]. *)
Definition bounded (files : gmap string CognitiveFile) : Prop :=
  forall p f, files !! p = Some f -> 0 <= raw_pressure f <= 1.

(** The gate of lines 124-126: does a file with this (pre-propagation)
    pressure propagate? *)
Definition sends (config : PressureConfig) (f : CognitiveFile) : bool :=
  negb (hot_propagates config
        && Qltb (raw_pressure f) (min_pressure_to_propagate config)).

(** [base_flow] of a source with [n] outgoing edges (lines 133-136). *)
Definition per_edge_flow (config : PressureConfig) (n : nat) : Q :=
  if bool_decide (1 < n)%nat then edge_flow_rate config / len_Q n
  else edge_flow_rate config.

(** Pressure carried by the edge [src -> target] during one call: zero
    unless [src] is registered and passes the gate, [target] is registered
    and is one of the outgoing edges of [src]. *)
Definition flow (files : gmap string CognitiveFile)
    (adjacency : gmap string (gset string))
    (edge_weights : option (gmap string (gmap string Q)))
    (config : PressureConfig) (src target : string) : Q :=
  match files !! src, files !! target with
  | Some f, Some _ =>
      if sends config f && bool_decide (target ∈ outgoing_of adjacency src)
      then per_edge_flow config (size (outgoing_of adjacency src))
           * edge_weight edge_weights src target
      else 0
  | _, _ => 0
  end.

(** Everything [k] receives: the flows from all registered files. *)
Definition inflow files adjacency edge_weights config (k : string) : Q :=
  py_sum ((fun s => flow files adjacency edge_weights config s k)
            <$> (map_to_list files).*1).

(** Everything [k] sends: the flows along its outgoing edges. *)
Definition outflow files adjacency edge_weights config (k : string) : Q :=
  py_sum ((fun t => flow files adjacency edge_weights config k t)
            <$> elements (outgoing_of adjacency k)).

(** [deltas[k]] read as a [defaultdict(float)]. *)
Definition delta_of (deltas : gmap string Q) (k : string) : Q :=
  default 0 (deltas !! k).

(** The loop body of [propagate_pressure] without the error plumbing. *)
Definition source_deltas (files : gmap string CognitiveFile)
    (adjacency : gmap string (gset string))
    (edge_weights : option (gmap string (gmap string Q)))
    (config : PressureConfig)
    (deltas : gmap string Q) (item : string * CognitiveFile)
  : gmap string Q :=
  if sends config item.2 then
    foldl (send_flow files edge_weights config item.1
             (per_edge_flow config (size (outgoing_of adjacency item.1))))
          deltas (elements (outgoing_of adjacency item.1))
  else deltas.

(** Flow along the edge to [t] as the inner loop computes it. *)
Definition edge_flow (files : gmap string CognitiveFile)
    (edge_weights : option (gmap string (gmap string Q)))
    (src : string) (base_flow : Q) (t : string) : Q :=
  match files !! t with
  | Some _ => base_flow * edge_weight edge_weights src t
  | None => 0
  end.

(** What the final pass does to a file with delta [d]. *)
Definition shifted (d : Q) (f : CognitiveFile) : CognitiveFile :=
  set_pressure f (Qmax 0 (Qmin 1 (raw_pressure f + d))).

(** Reading a result: the pressure of [p], the delta of [p], the total. *)
Definition pressure_after (r : result State) (p : string) : option Q :=
  match r with
  | Ok (files, _) => raw_pressure <$> files !! p
  | Raise _ => None
  end.

Definition delta_after (r : result State) (p : string) : option Q :=
  match r with
  | Ok (_, deltas) => deltas !! p
  | Raise _ => None
  end.

Definition total_after (r : result (gmap string CognitiveFile)) : option Q :=
  match r with
  | Ok files => Some (total_raw_pressure files)
  | Raise _ => None
  end.

(** An adjacency with the unregistered targets removed. *)
Definition known_edges (files : gmap string CognitiveFile)
    (adjacency : gmap string (gset string)) : gmap string (gset string) :=
  filter (fun t => is_Some (files !! t)) <$> adjacency.

(** The fields of a file other than raw_pressure and pressure_bucket. *)
Definition same_identity (f f' : CognitiveFile) : Prop :=
  path f' = path f
  /\ last_activated f' = last_activated f
  /\ activation_count f' = activation_count f
  /\ consecutive_hot_turns f' = consecutive_hot_turns f
  /\ basin_depth f' = basin_depth f
  /\ last_resurrected f' = last_resurrected f.

(** Same keys, and under each key a file that differs at most in its
    raw_pressure and pressure_bucket. *)
Definition frame_kept (files files' : gmap string CognitiveFile) : Prop :=
  forall p,
    match files !! p, files' !! p with
    | Some f, Some f' => same_identity f f'
    | None, None => True
    | _, _ => False
    end.

(** [n] consecutive calls of [apply_decay], at turns [t], [t + 1], ...,
    each on the file map the previous call left. *)
Fixpoint decay_turns (n : nat) (files : gmap string CognitiveFile) (t : Z)
    (config : PressureConfig) : gmap string CognitiveFile :=
  match n with
  | O => files
  | S n' => decay_turns n' (apply_decay files t config).1 (t + 1) config
  end.

(** * Properties *)

(** ** Arithmetic helpers *)

Lemma Qltb_lt (x y : Q) : Qltb x y = true <-> x < y.
Proof.
  unfold Qltb. rewrite Qlt_alt. destruct (x ?= y); split; congruence.
Qed.

Lemma Qltb_ge (x y : Q) : Qltb x y = false <-> y <= x.
Proof.
  rewrite <- not_true_iff_false, Qltb_lt. split; [apply Qnot_lt_le | apply Qle_not_lt].
Qed.

Lemma len_Q_pos (n : nat) : (0 < n)%nat -> 0 < len_Q n.
Proof.
  intros H. unfold len_Q. change 0 with (inject_Z 0).
  rewrite <- Zlt_Qlt. lia.
Qed.

Lemma len_Q_S (n : nat) : len_Q (S n) == len_Q n + 1.
Proof.
  unfold len_Q. rewrite Nat2Z.inj_succ, <- Z.add_1_r, inject_Z_plus. reflexivity.
Qed.

Lemma py_div_Ok (x y : Q) : ~ y == 0 -> py_div x y = Ok (x / y).
Proof.
  intros H. unfold py_div. destruct (Qeq_bool y 0) eqn:E; [|reflexivity].
  apply Qeq_bool_iff in E. contradiction.
Qed.

Lemma py_div_zero (x y : Q) : y == 0 -> py_div x y = Raise ZeroDivisionError.
Proof.
  intros H. unfold py_div. apply Qeq_bool_iff in H. rewrite H. reflexivity.
Qed.

Lemma foldl_Qplus_acc (a : Q) (xs : list Q) :
  foldl Qplus a xs == a + foldl Qplus 0 xs.
Proof.
  revert a. induction xs as [|x xs IH]; intros a; simpl.
  - ring.
  - rewrite (IH (a + x)), (IH (0 + x)). ring.
Qed.

Lemma py_sum_nil : py_sum [] = 0.
Proof. reflexivity. Qed.

Lemma py_sum_cons (x : Q) (xs : list Q) : py_sum (x :: xs) == x + py_sum xs.
Proof.
  unfold py_sum. simpl. rewrite foldl_Qplus_acc. ring.
Qed.

Lemma py_sum_ext {A : Type} (g h : A -> Q) (l : list A) :
  (forall a, a ∈ l -> g a == h a) -> py_sum (g <$> l) == py_sum (h <$> l).
Proof.
  induction l as [|a l IH]; intros H; [reflexivity|].
  rewrite !fmap_cons, !py_sum_cons, IH.
  - rewrite (H a); [reflexivity | left].
  - intros b Hb. apply H. by right.
Qed.

Lemma py_sum_const {A : Type} (c : Q) (l : list A) :
  py_sum ((fun _ => c) <$> l) == len_Q (length l) * c.
Proof.
  induction l as [|a l IH]; [rewrite fmap_nil, py_sum_nil; unfold len_Q; simpl; ring|].
  rewrite fmap_cons, py_sum_cons, IH. cbn [length]. rewrite len_Q_S. ring.
Qed.

Lemma py_sum_le {A : Type} (g h : A -> Q) (l : list A) :
  (forall a, a ∈ l -> g a <= h a) -> py_sum (g <$> l) <= py_sum (h <$> l).
Proof.
  induction l as [|a l IH]; intros H; [apply Qle_refl|].
  rewrite !fmap_cons, !py_sum_cons. apply Qplus_le_compat.
  - apply H. left.
  - apply IH. intros b Hb. apply H. by right.
Qed.


(** ** apply_decay *)

Lemma decay_file_immune t config fs ds p f :
  immune t config f -> decay_file t config (fs, ds) (p, f) = (fs, ds).
Proof.
  unfold immune, decay_file. intros H.
  apply Z.ltb_lt in H. by rewrite H.
Qed.

Lemma decay_file_exposed t config fs ds p f :
  ~ immune t config f ->
  decay_file t config (fs, ds) (p, f) =
    (<[p := decayed config f]> fs,
     <[p := raw_pressure (decayed config f) - raw_pressure f]> ds).
Proof.
  unfold immune, decay_file. intros H.
  apply Z.ltb_nlt in H. by rewrite H.
Qed.

Lemma decay_loop t config (l : list (string * CognitiveFile)) :
  forall fs ds, NoDup l.*1 ->
  forall p,
    (foldl (decay_file t config) (fs, ds) l).1 !! p =
      match (list_to_map l : gmap string CognitiveFile) !! p with
      | Some f => if decide (immune t config f) then fs !! p
                  else Some (decayed config f)
      | None => fs !! p
      end
    /\
    (foldl (decay_file t config) (fs, ds) l).2 !! p =
      match (list_to_map l : gmap string CognitiveFile) !! p with
      | Some f => if decide (immune t config f) then ds !! p
                  else Some (raw_pressure (decayed config f) - raw_pressure f)
      | None => ds !! p
      end.
Proof.
  induction l as [|[k f] l IH]; intros fs ds Hnd p.
  - by rewrite list_to_map_nil, lookup_empty.
  - rewrite fmap_cons in Hnd. cbn [fst] in Hnd.
    apply NoDup_cons in Hnd as [Hk Hnd].
    apply not_elem_of_list_to_map_1 in Hk as Hnone.
    cbn [foldl]. rewrite list_to_map_cons.
    destruct (decide (immune t config f)) as [Him|Hex].
    + rewrite decay_file_immune by done.
      destruct (IH fs ds Hnd p) as [-> ->].
      destruct (decide (k = p)) as [->|Hne].
      * rewrite lookup_insert_eq, Hnone.
        by destruct (decide (immune t config f)).
      * by rewrite lookup_insert_ne.
    + rewrite decay_file_exposed by done.
      destruct (IH (<[k := decayed config f]> fs)
                   (<[k := raw_pressure (decayed config f) - raw_pressure f]> ds)
                   Hnd p) as [-> ->].
      destruct (decide (k = p)) as [->|Hne].
      * rewrite !lookup_insert_eq, Hnone.
        by destruct (decide (immune t config f)).
      * rewrite !lookup_insert_ne by done.
        destruct (list_to_map l !! p) as [g|]; [|done].
        by destruct (decide (immune t config g)).
Qed.

Lemma apply_decay_files files t config p :
  (apply_decay files t config).1 !! p =
    (fun f => if decide (immune t config f) then f else decayed config f)
      <$> files !! p.
Proof.
  unfold apply_decay.
  destruct (decay_loop t config (map_to_list files) files ∅
              (NoDup_fst_map_to_list files) p) as [-> _].
  rewrite list_to_map_to_list.
  destruct (files !! p) as [f|] eqn:E; [|done]. simpl.
  by destruct (decide (immune t config f)).
Qed.

Lemma apply_decay_deltas files t config p :
  (apply_decay files t config).2 !! p =
    match files !! p with
    | Some f => if decide (immune t config f) then None
                else Some (raw_pressure (decayed config f) - raw_pressure f)
    | None => None
    end.
Proof.
  unfold apply_decay.
  destruct (decay_loop t config (map_to_list files) files ∅
              (NoDup_fst_map_to_list files) p) as [_ ->].
  rewrite list_to_map_to_list, lookup_empty.
  by destruct (files !! p).
Qed.

(** C9. Decay immunity frame: a file whose last activation is fewer than
    [decay_immunity_turns] turns ago is returned unchanged by [apply_decay]
    (same raw_pressure, same pressure_bucket, in fact the same record) and
    gets no entry in the returned deltas; a file outside the window has its
    raw_pressure multiplied by [decay_rate], its bucket re-quantized, and
    its delta recorded. *)
Theorem apply_decay_immunity_frame files t config p f :
  files !! p = Some f ->
  (immune t config f ->
     (apply_decay files t config).1 !! p = Some f
     /\ (apply_decay files t config).2 !! p = None)
  /\
  (~ immune t config f ->
     exists f',
       (apply_decay files t config).1 !! p = Some f'
       /\ raw_pressure f' = raw_pressure f * decay_rate config
       /\ pressure_bucket f' = quantize_pressure (raw_pressure f')
       /\ (apply_decay files t config).2 !! p
            = Some (raw_pressure f' - raw_pressure f)).
Proof.
  intros Hf. rewrite apply_decay_files, apply_decay_deltas, Hf. simpl.
  split; intros H; destruct (decide (immune t config f)); try contradiction.
  - done.
  - exists (decayed config f). done.
Qed.


(** ** redistribute_pressure *)

Lemma insert_loop {A : Type} (h : A -> A) (l : list (string * A)) :
  forall (fs : gmap string A), NoDup l.*1 ->
  forall p,
    foldl (fun fs item => <[item.1 := h item.2]> fs) fs l !! p =
      match (list_to_map l : gmap string A) !! p with
      | Some v => Some (h v)
      | None => fs !! p
      end.
Proof.
  induction l as [|[k v] l IH]; intros fs Hnd p.
  - by rewrite list_to_map_nil, lookup_empty.
  - rewrite fmap_cons in Hnd. cbn [fst] in Hnd.
    apply NoDup_cons in Hnd as [Hk Hnd].
    apply not_elem_of_list_to_map_1 in Hk as Hnone.
    cbn [foldl fst snd]. rewrite IH, list_to_map_cons by done.
    destruct (decide (k = p)) as [->|Hne].
    + by rewrite Hnone, !lookup_insert_eq.
    + by rewrite !lookup_insert_ne.
Qed.

Lemma update_all_fmap (g : CognitiveFile -> Q)
    (files : gmap string CognitiveFile) :
  update_all g files = (fun f => set_pressure f (g f)) <$> files.
Proof.
  apply map_eq. intros p. unfold update_all.
  rewrite (insert_loop (fun f => set_pressure f (g f)))
    by apply NoDup_fst_map_to_list.
  rewrite list_to_map_to_list, lookup_fmap.
  by destruct (files !! p).
Qed.

Lemma length_values (files : gmap string CognitiveFile) :
  length (map_to_list files).*2 = size files.
Proof. by rewrite length_fmap, length_map_to_list. Qed.

Lemma len_Q_size_nonzero (files : gmap string CognitiveFile) :
  files <> ∅ -> ~ len_Q (size files) == 0.
Proof.
  intros H%map_size_non_empty_iff.
  assert (0 < len_Q (size files)) by (apply len_Q_pos; lia). lra.
Qed.

(** ** apply_activation *)

Lemma occurrences_cons (p a : string) (l : list string) :
  occurrences p (a :: l) =
    if decide (a = p) then S (occurrences p l) else occurrences p l.
Proof.
  unfold occurrences. rewrite filter_cons.
  by destruct (decide (a = p)).
Qed.

Lemma occurrences_0 (p : string) (l : list string) :
  p ∉ l -> occurrences p l = 0%nat.
Proof.
  induction l as [|a l IH]; intros H; [done|].
  apply not_elem_of_cons in H as [Hne Hl].
  rewrite occurrences_cons, decide_False by done. by apply IH.
Qed.

Lemma occurrences_pos (p : string) (l : list string) :
  p ∈ l -> (0 < occurrences p l)%nat.
Proof.
  induction l as [|a l IH]; intros H; [by apply elem_of_nil in H|].
  rewrite occurrences_cons. destruct (decide (a = p)); [lia|].
  apply elem_of_cons in H as [->|H]; [done | by apply IH].
Qed.

Lemma occurrences_NoDup (p : string) (l : list string) :
  NoDup l -> p ∈ l -> occurrences p l = 1%nat.
Proof.
  induction l as [|a l IH]; intros Hnd H; [by apply elem_of_nil in H|].
  apply NoDup_cons in Hnd as [Ha Hnd].
  rewrite occurrences_cons. destruct (decide (a = p)) as [->|Hne].
  - by rewrite occurrences_0.
  - apply elem_of_cons in H as [->|H]; [done | by apply IH].
Qed.

Lemma drain_loop (d : Q) (l : list string) :
  forall (fs : gmap string CognitiveFile) (ds : gmap string Q),
    NoDup l ->
    (forall p, p ∈ l -> is_Some (fs !! p)) ->
    exists fs' ds',
      foldM (drain_file d) (fs, ds) l = Ok (fs', ds')
      /\ forall p,
           fs' !! p = (if decide (p ∈ l) then drained d <$> fs !! p
                       else fs !! p)
           /\ ds' !! p =
                (if decide (p ∈ l)
                 then (fun f => raw_pressure (drained d f) - raw_pressure f)
                        <$> fs !! p
                 else ds !! p).
Proof.
  induction l as [|a l IH]; intros fs ds Hnd Hin.
  - exists fs, ds. split; [done|]. intros p.
    rewrite decide_False; [done | apply not_elem_of_nil].
  - apply NoDup_cons in Hnd as [Ha Hnd].
    destruct (Hin a) as [f Hf]; [left|].
    cbn [foldM]. unfold drain_file at 1. rewrite Hf.
    fold (drained d f).
    destruct (IH (<[a := drained d f]> fs)
                 (<[a := raw_pressure (drained d f) - raw_pressure f]> ds) Hnd)
      as (fs' & ds' & Hrun & Hlook).
    { intros p Hp. apply lookup_insert_is_Some'. right. apply Hin. by right. }
    exists fs', ds'. split; [exact Hrun|]. intros p.
    destruct (Hlook p) as [-> ->].
    destruct (decide (a = p)) as [->|Hne].
    + rewrite !(decide_False (P := p ∈ l)) by done.
      rewrite !(decide_True (P := p ∈ p :: l)) by left.
      by rewrite !lookup_insert_eq, Hf.
    + rewrite !lookup_insert_ne by done.
      destruct (decide (p ∈ l)) as [Hp|Hp].
      * rewrite !decide_True; [done | by right..].
      * rewrite !decide_False; [done|..];
          intros [->|?]%elem_of_cons; done.
Qed.

Lemma boost_loop (config : PressureConfig) (l : list string) :
  forall (fs : gmap string CognitiveFile) (ds : gmap string Q) p,
    (foldl (boost_file config) (fs, ds) l).1 !! p =
      Nat.iter (occurrences p l) (boosted config) <$> fs !! p.
Proof.
  induction l as [|a l IH]; intros fs ds p.
  - simpl. by destruct (fs !! p).
  - cbn [foldl]. unfold boost_file at 2.
    rewrite occurrences_cons.
    destruct (fs !! a) as [f|] eqn:Hf.
    + fold (boosted config f). rewrite IH.
      destruct (decide (a = p)) as [->|Hne].
      * rewrite lookup_insert_eq, Hf. cbn [fmap option_fmap option_map].
        by rewrite Nat.iter_succ_r.
      * by rewrite lookup_insert_ne.
    + rewrite IH. destruct (decide (a = p)) as [->|Hne]; [|done].
      by rewrite Hf.
Qed.

Lemma non_activated_NoDup files activated :
  NoDup (non_activated_paths files activated).
Proof. apply NoDup_filter, NoDup_fst_map_to_list. Qed.

Lemma elem_of_keys (files : gmap string CognitiveFile) p :
  p ∈ (map_to_list files).*1 <-> is_Some (files !! p).
Proof.
  rewrite list_elem_of_fmap. split.
  - intros ([k f] & -> & Hin). apply elem_of_map_to_list in Hin. by exists f.
  - intros [f Hf]. exists (p, f). split; [done|]. by apply elem_of_map_to_list.
Qed.

Lemma elem_of_non_activated files activated p :
  p ∈ non_activated_paths files activated <->
  (p ∉ activated) /\ is_Some (files !! p).
Proof.
  unfold non_activated_paths. by rewrite list_elem_of_filter, elem_of_keys.
Qed.

(** The drain phase (lines 74-83) as a function of the input state. *)
Lemma drain_phase files activated config :
  exists fs ds,
    drain_non_activated files activated config
      (len_Q (length activated) * activation_boost config) = Ok (fs, ds)
    /\ forall p,
         fs !! p =
           if decide (p ∈ activated) then files !! p
           else if enable_conservation config
                then drained (drain_share files activated config) <$> files !! p
                else files !! p.
Proof.
  unfold drain_non_activated.
  destruct (enable_conservation config).
  2:{ exists files, ∅. split; [done|]. intros p. by destruct (decide _). }
  destruct (non_activated_paths files activated) as [|a l] eqn:Hna.
  - exists files, ∅. split; [done|]. intros p.
    destruct (decide (p ∈ activated)); [done|].
    destruct (files !! p) as [f|] eqn:Hf; [|done].
    assert (p ∈ non_activated_paths files activated) as Hp
      by by apply elem_of_non_activated.
    rewrite Hna in Hp. by apply elem_of_nil in Hp.
  - rewrite <- Hna.
    rewrite py_div_Ok.
    2:{ assert (0 < len_Q (length (non_activated_paths files activated))).
        { apply len_Q_pos. rewrite Hna. simpl. lia. }
        lra. }
    cbn [mbind result_bind].
    fold (drain_share files activated config).
    destruct (drain_loop (drain_share files activated config)
                (non_activated_paths files activated) files ∅)
      as (fs & ds & Hrun & Hlook).
    { apply non_activated_NoDup. }
    { intros p Hp. by apply elem_of_non_activated in Hp as [_ ?]. }
    exists fs, ds. split; [exact Hrun|]. intros p.
    destruct (Hlook p) as [-> _].
    destruct (decide (p ∈ activated)) as [Hp|Hp].
    + rewrite decide_False; [done|].
      rewrite elem_of_non_activated. tauto.
    + destruct (files !! p) as [f|] eqn:Hf.
      * rewrite decide_True; [done|]. by apply elem_of_non_activated.
      * by destruct (decide _).
Qed.


Lemma apply_activation_lookup files activated config :
  activated <> [] ->
  exists files' deltas,
    apply_activation files activated config = Ok (files', deltas)
    /\ forall p,
         files' !! p =
           if decide (p ∈ activated)
           then Nat.iter (occurrences p activated) (boosted config)
                  <$> files !! p
           else if enable_conservation config
                then drained (drain_share files activated config) <$> files !! p
                else files !! p.
Proof.
  intros Hne.
  destruct (drain_phase files activated config) as (fs & ds & Hrun & Hlook).
  assert (apply_activation files activated config =
            Ok (foldl (boost_file config) (fs, ds) activated)) as ->.
  { destruct activated; [done|]. unfold apply_activation. by rewrite Hrun. }
  destruct (foldl (boost_file config) (fs, ds) activated) as [files' deltas] eqn:E.
  exists files', deltas. split; [done|]. intros p.
  change files' with (files', deltas).1. rewrite <- E.
  rewrite boost_loop, Hlook.
  destruct (decide (p ∈ activated)) as [Hp|Hp]; [done|].
  rewrite occurrences_0 by done. simpl.
  by destruct (if enable_conservation config then _ else _).
Qed.

(** C4. Activation semantics.  [apply_activation] always returns.  With an
    empty activated list it returns the file map unchanged and an empty
    delta map.  Otherwise every registered file that is listed is boosted
    by [activation_boost], clamped at 1.0, once per listing (exactly once
    when the list has no repetition); every registered file that is not
    listed is, when conservation is enabled, drained by
    [len(activated) * activation_boost / len(non_activated)], clamped at 0,
    and is left alone when conservation is disabled; ids that are not
    registered stay unregistered. *)
Theorem apply_activation_semantics files activated config :
  apply_activation files [] config = Ok (files, ∅)
  /\ exists files' deltas,
       apply_activation files activated config = Ok (files', deltas)
       /\ (forall p f, files !! p = Some f -> p ∈ activated ->
             files' !! p =
               Some (Nat.iter (occurrences p activated) (boosted config) f)
             /\ (NoDup activated ->
                 exists f', files' !! p = Some f'
                   /\ raw_pressure f' =
                        Qmin 1 (raw_pressure f + activation_boost config)))
       /\ (forall p f, files !! p = Some f -> p ∉ activated ->
             activated <> [] ->
             exists f', files' !! p = Some f'
               /\ raw_pressure f' =
                    if enable_conservation config
                    then Qmax 0 (raw_pressure f
                                 - len_Q (length activated)
                                   * activation_boost config
                                   / len_Q (length (non_activated_paths
                                                      files activated)))
                    else raw_pressure f)
       /\ (forall p, files !! p = None -> files' !! p = None).
Proof.
  split; [done|].
  destruct activated as [|a l] eqn:Hact.
  { exists files, ∅. split; [done|]. split; [|split].
    - intros p f _ Hp. by apply elem_of_nil in Hp.
    - by intros p f _ _ Hne.
    - done. }
  rewrite <- Hact.
  destruct (apply_activation_lookup files activated config)
    as (files' & deltas & Hrun & Hlook); [by rewrite Hact|].
  exists files', deltas. split; [exact Hrun|].
  split; [|split].
  - intros p f Hf Hp. rewrite Hlook, decide_True, Hf by done.
    split; [done|]. intros Hnd.
    rewrite occurrences_NoDup by done. by eexists.
  - intros p f Hf Hp _. rewrite Hlook, decide_False, Hf by done.
    destruct (enable_conservation config); by eexists.
  - intros p Hf. rewrite Hlook, Hf.
    destruct (decide _); [done|]. by destruct (enable_conservation config).
Qed.

(** [apply_activation] never raises. *)
Lemma apply_activation_total files activated config :
  exists st, apply_activation files activated config = Ok st.
Proof.
  destruct activated as [|a l] eqn:Hact; [by eexists|].
  rewrite <- Hact.
  destruct (apply_activation_lookup files activated config)
    as (files' & deltas & Hrun & _); [by rewrite Hact|].
  by exists (files', deltas).
Qed.


(** ** propagate_pressure *)

Lemma foldM_pure {S A : Type} (body : S -> A -> result S) (f : S -> A -> S)
    (l : list A) :
  (forall s a, a ∈ l -> body s a = Ok (f s a)) ->
  forall s, foldM body s l = Ok (foldl f s l).
Proof.
  induction l as [|a l IH]; intros H s; [done|].
  cbn [foldM foldl]. rewrite H by left. apply IH.
  intros s' b Hb. apply H. by right.
Qed.

Lemma per_edge_flow_div (config : PressureConfig) (n : nat) :
  (0 < n)%nat -> per_edge_flow config n == edge_flow_rate config / len_Q n.
Proof.
  intros Hn. unfold per_edge_flow. case_bool_decide; [reflexivity|].
  assert (n = 1%nat) as -> by lia. unfold len_Q. simpl. field.
Qed.

Lemma propagate_from_pure files adjacency edge_weights config deltas item :
  propagate_from files adjacency edge_weights config deltas item =
    Ok (source_deltas files adjacency edge_weights config deltas item).
Proof.
  destruct item as [src file].
  unfold propagate_from, source_deltas, sends. cbn [fst snd].
  destruct (hot_propagates config && Qltb _ _); [done|]. cbn [negb].
  case_bool_decide as Hsz.
  - apply size_empty_inv in Hsz. apply leibniz_equiv in Hsz.
    by rewrite Hsz, elements_empty.
  - unfold per_edge_flow. case_bool_decide as Hgt; [|done].
    rewrite py_div_Ok; [done|].
    assert (0 < len_Q (size (outgoing_of adjacency src)))
      by (apply len_Q_pos; lia).
    lra.
Qed.

Lemma propagate_pressure_pure files adjacency edge_weights config :
  propagate_pressure files adjacency edge_weights config =
    let deltas := foldl (source_deltas files adjacency edge_weights config)
                        ∅ (map_to_list files) in
    Ok (foldl apply_delta files (map_to_list deltas), deltas).
Proof.
  unfold propagate_pressure.
  rewrite (foldM_pure _ (source_deltas files adjacency edge_weights config));
    [done|].
  intros. apply propagate_from_pure.
Qed.


Lemma apply_delta_lookup files a d k :
  apply_delta files (a, d) !! k =
    if decide (a = k) then shifted d <$> files !! k else files !! k.
Proof.
  unfold apply_delta. destruct (decide (a = k)) as [->|Hne].
  - destruct (files !! k) as [f|] eqn:Hf.
    + by rewrite lookup_insert_eq.
    + by rewrite Hf.
  - destruct (files !! a); [by rewrite lookup_insert_ne | done].
Qed.

Lemma final_pass_loop (l : list (string * Q)) :
  forall (fs : gmap string CognitiveFile), NoDup l.*1 ->
  forall k,
    foldl apply_delta fs l !! k =
      match (list_to_map l : gmap string Q) !! k with
      | Some d => shifted d <$> fs !! k
      | None => fs !! k
      end.
Proof.
  induction l as [|[a d] l IH]; intros fs Hnd k.
  - by rewrite list_to_map_nil, lookup_empty.
  - rewrite fmap_cons in Hnd. cbn [fst] in Hnd.
    apply NoDup_cons in Hnd as [Ha Hnd].
    apply not_elem_of_list_to_map_1 in Ha as Hnone.
    cbn [foldl]. rewrite IH, list_to_map_cons, apply_delta_lookup by done.
    destruct (decide (a = k)) as [->|Hne].
    + by rewrite Hnone, lookup_insert_eq.
    + rewrite lookup_insert_ne by done.
      by destruct (list_to_map l !! k).
Qed.

Lemma final_pass files (deltas : gmap string Q) k :
  foldl apply_delta files (map_to_list deltas) !! k =
    match deltas !! k with
    | Some d => shifted d <$> files !! k
    | None => files !! k
    end.
Proof.
  rewrite final_pass_loop by apply NoDup_fst_map_to_list.
  by rewrite list_to_map_to_list.
Qed.

(** *** The deltas as a [defaultdict] *)

Lemma delta_of_add deltas t x k :
  delta_of (add_delta deltas t x) k =
    if decide (t = k) then delta_of deltas k + x else delta_of deltas k.
Proof.
  unfold delta_of, add_delta. destruct (decide (t = k)) as [->|Hne].
  - by rewrite lookup_insert_eq.
  - by rewrite lookup_insert_ne.
Qed.

Lemma delta_of_sub deltas t x k :
  delta_of (sub_delta deltas t x) k =
    if decide (t = k) then delta_of deltas k - x else delta_of deltas k.
Proof.
  unfold delta_of, sub_delta. destruct (decide (t = k)) as [->|Hne].
  - by rewrite lookup_insert_eq.
  - by rewrite lookup_insert_ne.
Qed.

Lemma send_flow_delta files ew config src bf deltas t k :
  delta_of (send_flow files ew config src bf deltas t) k ==
    delta_of deltas k
    + (if decide (t = k) then edge_flow files ew src bf t else 0)
    - (if enable_conservation config && bool_decide (src = k)
       then edge_flow files ew src bf t else 0).
Proof.
  unfold send_flow, edge_flow.
  destruct (files !! t) as [f|].
  2:{ destruct (decide _), (_ && _); ring. }
  destruct (enable_conservation config); cbn [andb].
  - rewrite delta_of_sub, delta_of_add.
    case_bool_decide; destruct (decide (t = k)), (decide (src = k));
      try done; ring.
  - rewrite delta_of_add. destruct (decide (t = k)); ring.
Qed.

Lemma send_loop_delta files ew config src bf (l : list string) :
  forall deltas k,
    delta_of (foldl (send_flow files ew config src bf) deltas l) k ==
      delta_of deltas k
      + py_sum ((fun t => if decide (t = k) then edge_flow files ew src bf t
                          else 0) <$> l)
      - (if enable_conservation config && bool_decide (src = k)
         then py_sum (edge_flow files ew src bf <$> l) else 0).
Proof.
  induction l as [|a l IH]; intros deltas k.
  - cbn [foldl]. rewrite !fmap_nil, py_sum_nil. destruct (_ && _); ring.
  - cbn [foldl]. rewrite IH, send_flow_delta.
    rewrite !fmap_cons.
    destruct (_ && _); rewrite !py_sum_cons; ring.
Qed.

Lemma py_sum_zero {A : Type} (g : A -> Q) (l : list A) :
  (forall a, a ∈ l -> g a == 0) -> py_sum (g <$> l) == 0.
Proof.
  intros H. rewrite (py_sum_ext g (fun _ => 0)) by done.
  rewrite py_sum_const. ring.
Qed.

(** A sum that selects one key of a duplicate-free list. *)
Lemma py_sum_select (g : string -> Q) (k : string) (l : list string) :
  NoDup l ->
  py_sum ((fun t => if decide (t = k) then g t else 0) <$> l) ==
    if decide (k ∈ l) then g k else 0.
Proof.
  induction l as [|a l IH]; intros Hnd.
  - rewrite fmap_nil, py_sum_nil, decide_False; [done | apply not_elem_of_nil].
  - apply NoDup_cons in Hnd as [Ha Hnd].
    rewrite fmap_cons, py_sum_cons, IH by done.
    destruct (decide (a = k)) as [->|Hne].
    + rewrite decide_False, decide_True by (done || left). ring.
    + destruct (decide (k ∈ l)) as [Hk|Hk].
      * rewrite decide_True by by right. ring.
      * rewrite decide_False; [ring|].
        intros [->|?]%elem_of_cons; done.
Qed.


Lemma flow_unregistered_source files adjacency ew config s t :
  files !! s = None -> flow files adjacency ew config s t = 0.
Proof. unfold flow. by intros ->. Qed.

Lemma flow_unregistered_target files adjacency ew config s t :
  files !! t = None -> flow files adjacency ew config s t = 0.
Proof. unfold flow. intros ->. by destruct (files !! s). Qed.

Lemma flow_gated files adjacency ew config s f t :
  files !! s = Some f -> sends config f = false ->
  flow files adjacency ew config s t = 0.
Proof. unfold flow. intros -> ->. by destruct (files !! t). Qed.

Lemma flow_edge files adjacency ew config s f t :
  files !! s = Some f -> sends config f = true ->
  t ∈ outgoing_of adjacency s ->
  flow files adjacency ew config s t =
    edge_flow files ew s
      (per_edge_flow config (size (outgoing_of adjacency s))) t.
Proof.
  unfold flow, edge_flow. intros -> -> Ht.
  destruct (files !! t); [|done].
  by rewrite bool_decide_eq_true_2.
Qed.

Lemma flow_no_edge files adjacency ew config s t :
  t ∉ outgoing_of adjacency s -> flow files adjacency ew config s t = 0.
Proof.
  unfold flow. intros Ht. destruct (files !! s), (files !! t); try done.
  rewrite bool_decide_eq_false_2 by done. by rewrite andb_false_r.
Qed.

Lemma source_deltas_delta files adjacency ew config deltas s f k :
  files !! s = Some f ->
  delta_of (source_deltas files adjacency ew config deltas (s, f)) k ==
    delta_of deltas k
    + flow files adjacency ew config s k
    - (if enable_conservation config && bool_decide (s = k)
       then outflow files adjacency ew config s else 0).
Proof.
  intros Hs. unfold source_deltas. cbn [fst snd].
  destruct (sends config f) eqn:Hgate.
  - rewrite send_loop_delta, py_sum_select by apply NoDup_elements.
    assert (py_sum
              (edge_flow files ew s
                 (per_edge_flow config (size (outgoing_of adjacency s)))
                 <$> elements (outgoing_of adjacency s))
            == outflow files adjacency ew config s) as Hout.
    { unfold outflow. apply py_sum_ext. intros t Ht.
      apply elem_of_elements in Ht.
      by rewrite (flow_edge _ _ _ _ s f t). }
    assert ((if decide (k ∈ elements (outgoing_of adjacency s))
             then edge_flow files ew s
                    (per_edge_flow config (size (outgoing_of adjacency s))) k
             else 0)
            == flow files adjacency ew config s k) as Hin.
    { destruct (decide _) as [Hk|Hk]; rewrite elem_of_elements in Hk.
      - by rewrite (flow_edge _ _ _ _ s f k).
      - by rewrite flow_no_edge. }
    rewrite Hin. destruct (_ && _); [rewrite Hout|]; ring.
  - rewrite (flow_gated _ _ _ _ s f k) by done.
    destruct (_ && _); [|ring].
    assert (outflow files adjacency ew config s == 0) as ->; [|ring].
    apply py_sum_zero. intros t _. by rewrite (flow_gated _ _ _ _ s f t).
Qed.

Lemma sources_loop_delta files adjacency ew config
    (l : list (string * CognitiveFile)) :
  (forall s f, (s, f) ∈ l -> files !! s = Some f) ->
  forall deltas k,
    delta_of (foldl (source_deltas files adjacency ew config) deltas l) k ==
      delta_of deltas k
      + py_sum ((fun s => flow files adjacency ew config s k) <$> l.*1)
      - (if enable_conservation config
         then py_sum ((fun s => if decide (s = k)
                                then outflow files adjacency ew config s
                                else 0) <$> l.*1)
         else 0).
Proof.
  induction l as [|[s f] l IH]; intros Hreg deltas k.
  - cbn [foldl]. rewrite !fmap_nil, py_sum_nil.
    destruct (enable_conservation config); ring.
  - cbn [foldl]. rewrite IH by (intros; apply Hreg; by right).
    rewrite source_deltas_delta by (apply Hreg; left).
    rewrite !fmap_cons. cbn [fst].
    destruct (enable_conservation config); cbn [andb];
      rewrite !py_sum_cons; [|ring].
    case_bool_decide; destruct (decide (s = k)); try done; ring.
Qed.

(** The deltas that [propagate_pressure] computes: what flows in minus,
    in conserving mode, what flows out. *)
Lemma propagate_deltas files adjacency ew config k :
  delta_of (foldl (source_deltas files adjacency ew config) ∅
                  (map_to_list files)) k ==
    inflow files adjacency ew config k
    - (if enable_conservation config
       then outflow files adjacency ew config k else 0).
Proof.
  rewrite sources_loop_delta
    by (intros s f Hin; by apply elem_of_map_to_list).
  fold (inflow files adjacency ew config k).
  unfold delta_of at 1. rewrite lookup_empty. cbn [default].
  destruct (enable_conservation config); [|ring].
  rewrite py_sum_select by apply NoDup_fst_map_to_list.
  destruct (decide _) as [Hk|Hk]; [ring|].
  assert (outflow files adjacency ew config k == 0) as ->; [|ring].
  apply py_sum_zero. intros t _. rewrite flow_unregistered_source; [done|].
  rewrite elem_of_keys in Hk. by apply eq_None_not_Some.
Qed.

(** Only registered files get an entry in the deltas. *)
Lemma send_flow_registered files ew config src bf deltas t :
  is_Some (files !! src) ->
  (forall k, is_Some (deltas !! k) -> is_Some (files !! k)) ->
  forall k, is_Some (send_flow files ew config src bf deltas t !! k) ->
            is_Some (files !! k).
Proof.
  intros Hsrc Hd k. unfold send_flow.
  destruct (files !! t) as [f|] eqn:Ht; [|apply Hd].
  unfold sub_delta, add_delta.
  destruct (enable_conservation config);
    rewrite ?lookup_insert_is_Some'; intros H;
    repeat (destruct H as [<-|H]; [done || by rewrite Ht|]); by apply Hd.
Qed.

Lemma source_deltas_registered files adjacency ew config deltas s f :
  files !! s = Some f ->
  (forall k, is_Some (deltas !! k) -> is_Some (files !! k)) ->
  forall k,
    is_Some (source_deltas files adjacency ew config deltas (s, f) !! k) ->
    is_Some (files !! k).
Proof.
  intros Hs Hd. unfold source_deltas. cbn [fst snd].
  destruct (sends config f); [|done].
  generalize (elements (outgoing_of adjacency s)). intros l.
  revert deltas Hd. induction l as [|t l IH]; intros deltas Hd; [done|].
  cbn [foldl]. apply IH. apply send_flow_registered; [by rewrite Hs | done].
Qed.

Lemma propagate_deltas_registered files adjacency ew config k :
  files !! k = None ->
  foldl (source_deltas files adjacency ew config) ∅ (map_to_list files) !! k
    = None.
Proof.
  intros Hk. apply eq_None_not_Some. intros Hsome.
  apply eq_None_not_Some in Hk. apply Hk. clear Hk. revert k Hsome.
  assert (forall s f, (s, f) ∈ map_to_list files -> files !! s = Some f) as Hreg
    by (intros s f Hin; by apply elem_of_map_to_list).
  assert (forall k, is_Some ((∅ : gmap string Q) !! k) -> is_Some (files !! k))
    as Hd by (intros k; rewrite lookup_empty; by intros [? ?]).
  revert Hreg Hd. generalize (∅ : gmap string Q).
  generalize (map_to_list files). intros l.
  induction l as [|[s f] l IH]; intros deltas Hreg Hd; [done|].
  cbn [foldl]. apply IH.
  - intros; apply Hreg; by right.
  - apply (source_deltas_registered _ _ _ _ _ s f); [apply Hreg; left | done].
Qed.


Lemma sends_false_iff config f :
  sends config f = false <->
  hot_propagates config = true
  /\ raw_pressure f < min_pressure_to_propagate config.
Proof.
  unfold sends. rewrite negb_false_iff, andb_true_iff, Qltb_lt. tauto.
Qed.

Lemma sends_true_iff config f :
  sends config f = true <->
  hot_propagates config = false
  \/ min_pressure_to_propagate config <= raw_pressure f.
Proof.
  unfold sends. rewrite negb_true_iff, andb_false_iff, Qltb_ge. tauto.
Qed.

(** The weight of an edge: the listed one, 1.0 when none is listed. *)
Lemma edge_weight_spec (ew : option (gmap string (gmap string Q))) s t :
  edge_weight ew s t =
    match ew with
    | None => 1
    | Some m => match m !! s with
                | None => 1
                | Some row => default 1 (row !! t)
                end
    end.
Proof.
  unfold edge_weight. destruct ew as [m|]; [|done].
  case_bool_decide as Hsz; [|done].
  apply map_size_empty_inv in Hsz. subst m. by rewrite lookup_empty.
Qed.

Lemma flow_sending files adjacency ew config s f t :
  files !! s = Some f -> sends config f = true ->
  t ∈ outgoing_of adjacency s -> is_Some (files !! t) ->
  flow files adjacency ew config s t ==
    edge_flow_rate config / len_Q (size (outgoing_of adjacency s))
    * edge_weight ew s t.
Proof.
  intros Hs Hgate Ht [g Hg].
  rewrite (flow_edge _ _ _ _ s f t) by done.
  unfold edge_flow. rewrite Hg, per_edge_flow_div; [reflexivity|].
  assert (size (outgoing_of adjacency s) ≠ 0%nat); [|lia].
  intros Hz%size_empty_inv. by apply Hz in Ht.
Qed.

(** C5 (amended). Propagation semantics.  [propagate_pressure] always
    returns.  A registered source sends along an edge only if it passes
    the gate evaluated on its pressure before the call: with
    [hot_propagates] set, a file below [min_pressure_to_propagate] sends
    nothing, however much pressure it receives during the call; with
    [hot_propagates] cleared every file sends.  A sending source carries,
    along each edge to a registered target, [edge_flow_rate] divided by
    its number of outgoing edges and multiplied by the edge weight (1.0
    when no weight is given).  The delta of a file is what flows in from
    all registered files minus, in conserving mode, exactly the flows it
    sends.  The new pressures are obtained in one final pass that adds the
    delta to the old pressure and clamps to [0, 1]. *)
Theorem propagate_pressure_semantics files adjacency edge_weights config :
  exists files' deltas,
    propagate_pressure files adjacency edge_weights config
      = Ok (files', deltas)
    /\ (forall k,
          delta_of deltas k ==
            inflow files adjacency edge_weights config k
            - (if enable_conservation config
               then outflow files adjacency edge_weights config k else 0))
    /\ (forall k,
          files' !! k =
            match deltas !! k with
            | Some d => shifted d <$> files !! k
            | None => files !! k
            end)
    /\ (forall s f t, files !! s = Some f ->
          (hot_propagates config = true ->
           raw_pressure f < min_pressure_to_propagate config ->
           flow files adjacency edge_weights config s t = 0)
          /\
          (hot_propagates config = false
           \/ min_pressure_to_propagate config <= raw_pressure f ->
           t ∈ outgoing_of adjacency s -> is_Some (files !! t) ->
           flow files adjacency edge_weights config s t ==
             edge_flow_rate config / len_Q (size (outgoing_of adjacency s))
             * edge_weight edge_weights s t))
    /\ (forall s t,
          edge_weight edge_weights s t =
            match edge_weights with
            | None => 1
            | Some m => match m !! s with
                        | None => 1
                        | Some row => default 1 (row !! t)
                        end
            end).
Proof.
  rewrite propagate_pressure_pure. cbn zeta.
  eexists _, _. split; [reflexivity|].
  split; [apply propagate_deltas|].
  split; [apply final_pass|].
  split; [|apply edge_weight_spec].
  intros s f t Hs. split.
  - intros Hhot Hlow. apply (flow_gated _ _ _ _ s f t Hs).
    by apply sends_false_iff.
  - intros Hgate Ht Hreg. apply (flow_sending _ _ _ _ s f t); try done.
    by apply sends_true_iff.
Qed.

(** [propagate_pressure] never raises. *)
Lemma propagate_pressure_total files adjacency edge_weights config :
  exists st, propagate_pressure files adjacency edge_weights config = Ok st.
Proof. rewrite propagate_pressure_pure. by eexists. Qed.


Lemma py_sum_sub {A : Type} (g h : A -> Q) (l : list A) :
  py_sum ((fun a => g a - h a) <$> l) == py_sum (g <$> l) - py_sum (h <$> l).
Proof.
  induction l as [|a l IH]; [rewrite !fmap_nil, py_sum_nil; ring|].
  rewrite !fmap_cons, !py_sum_cons, IH. ring.
Qed.

Lemma per_edge_flow_total config (n : nat) :
  (0 < n)%nat -> len_Q n * per_edge_flow config n == edge_flow_rate config.
Proof.
  intros Hn. rewrite per_edge_flow_div by done.
  assert (0 < len_Q n) by by apply len_Q_pos. field. lra.
Qed.

Lemma per_edge_flow_pos config (n : nat) :
  (0 < n)%nat -> 0 < edge_flow_rate config -> 0 < per_edge_flow config n.
Proof.
  intros Hn Hrate. rewrite per_edge_flow_div by done.
  assert (0 < len_Q n) by by apply len_Q_pos.
  apply Qlt_shift_div_l; lra.
Qed.

(** With default weights and every target registered, a sending source
    sends the whole [edge_flow_rate]. *)
Lemma outflow_all_registered files adjacency config s f :
  files !! s = Some f -> sends config f = true ->
  outgoing_of adjacency s <> ∅ ->
  (forall t, t ∈ outgoing_of adjacency s -> is_Some (files !! t)) ->
  outflow files adjacency None config s == edge_flow_rate config.
Proof.
  intros Hs Hgate Hne Hreg. unfold outflow.
  set (n := size (outgoing_of adjacency s)).
  assert (0 < n)%nat as Hn.
  { assert (n ≠ 0%nat); [|lia]. intros Hz%size_empty_inv.
    by apply leibniz_equiv in Hz. }
  rewrite (py_sum_ext _ (fun _ => per_edge_flow config n)).
  - rewrite py_sum_const. by apply per_edge_flow_total.
  - intros t Ht%elem_of_elements.
    rewrite (flow_edge _ _ _ _ s f t) by done.
    unfold edge_flow. destruct (Hreg t Ht) as [g ->].
    cbn [edge_weight]. fold n. ring.
Qed.

(** With default weights, an unregistered target costs the source one
    edge's share of [edge_flow_rate]. *)
Lemma outflow_unregistered_target files adjacency config s f u :
  files !! s = Some f -> sends config f = true ->
  u ∈ outgoing_of adjacency s -> files !! u = None ->
  0 <= edge_flow_rate config ->
  outflow files adjacency None config s
    <= edge_flow_rate config
       - edge_flow_rate config / len_Q (size (outgoing_of adjacency s)).
Proof.
  intros Hs Hgate Hu Hnone Hrate. unfold outflow.
  set (n := size (outgoing_of adjacency s)).
  assert (0 < n)%nat as Hn.
  { assert (n ≠ 0%nat); [|lia]. intros Hz%size_empty_inv. by apply Hz in Hu. }
  assert (0 <= per_edge_flow config n) as Hpos.
  { rewrite per_edge_flow_div by done.
    assert (0 < len_Q n) by by apply len_Q_pos.
    apply Qle_shift_div_l; lra. }
  eapply Qle_trans.
  - apply (py_sum_le _ (fun t => per_edge_flow config n
                                 - (if decide (t = u)
                                    then per_edge_flow config n else 0))).
    intros t Ht%elem_of_elements.
    rewrite (flow_edge _ _ _ _ s f t) by done. unfold edge_flow. fold n.
    destruct (decide (t = u)) as [->|Hne].
    + rewrite Hnone. lra.
    + destruct (files !! t); cbn [edge_weight]; lra.
  - rewrite py_sum_sub, py_sum_const.
    rewrite (py_sum_select (fun _ => per_edge_flow config n))
      by apply NoDup_elements.
    rewrite decide_True by by apply elem_of_elements.
    change (length (elements (outgoing_of adjacency s))) with n.
    rewrite per_edge_flow_total, per_edge_flow_div by done. lra.
Qed.

(** C10. In conserving propagation, an outgoing edge of a sending source
    whose target is not registered is skipped: the target gets no delta
    entry and stays unregistered, and the edge carries no flow, so the
    source loses nothing for it.  The edge still counts in the divisor:
    the flow to every registered target is
    [edge_flow_rate / len(outgoing)] times the weight, where [outgoing]
    includes the unregistered target.  Hence, with default weights, the
    total the source sends falls short of [edge_flow_rate] by at least one
    edge's share. *)
Theorem unregistered_target_in_divisor
    files adjacency edge_weights config s f u :
  enable_conservation config = true ->
  files !! s = Some f ->
  sends config f = true ->
  u ∈ outgoing_of adjacency s ->
  files !! u = None ->
  exists files' deltas,
    propagate_pressure files adjacency edge_weights config
      = Ok (files', deltas)
    /\ deltas !! u = None
    /\ files' !! u = None
    /\ flow files adjacency edge_weights config s u = 0
    /\ delta_of deltas s ==
         inflow files adjacency edge_weights config s
         - outflow files adjacency edge_weights config s
    /\ (forall t, t ∈ outgoing_of adjacency s -> is_Some (files !! t) ->
          flow files adjacency edge_weights config s t ==
            edge_flow_rate config / len_Q (size (outgoing_of adjacency s))
            * edge_weight edge_weights s t)
    /\ size (outgoing_of adjacency s)
         = S (size (outgoing_of adjacency s ∖ {[u]}))
    /\ (edge_weights = None -> 0 < edge_flow_rate config ->
          outflow files adjacency edge_weights config s
            <= edge_flow_rate config
               - edge_flow_rate config
                 / len_Q (size (outgoing_of adjacency s))
          /\ outflow files adjacency edge_weights config s
               < edge_flow_rate config).
Proof.
  intros Hcons Hs Hgate Hu Hnone.
  rewrite propagate_pressure_pure. cbn zeta.
  eexists _, _. split; [reflexivity|].
  assert (foldl (source_deltas files adjacency edge_weights config) ∅
                (map_to_list files) !! u = None) as Hdu
    by by apply propagate_deltas_registered.
  split; [exact Hdu|].
  split; [by rewrite final_pass, Hdu|].
  split; [by apply flow_unregistered_target|].
  split; [by rewrite propagate_deltas, Hcons|].
  split; [intros t Ht Hreg; by apply (flow_sending _ _ _ _ s f t)|].
  split.
  - rewrite (size_difference (outgoing_of adjacency s) {[u]}), size_singleton.
    + assert (size (outgoing_of adjacency s) ≠ 0%nat); [|lia].
      intros Hz%size_empty_inv. by apply Hz in Hu.
    + by apply singleton_subseteq_l.
  - intros -> Hrate.
    pose proof (outflow_unregistered_target files adjacency config s f u
                  Hs Hgate Hu Hnone) as Hle.
    assert (0 < size (outgoing_of adjacency s))%nat as Hn.
    { assert (size (outgoing_of adjacency s) ≠ 0%nat); [|lia].
      intros Hz%size_empty_inv. by apply Hz in Hu. }
    pose proof (per_edge_flow_pos config _ Hn Hrate) as Hpos.
    rewrite per_edge_flow_div in Hpos by done.
    split; [apply Hle; lra|].
    eapply Qle_lt_trans; [apply Hle; lra|]. lra.
Qed.


(** ** Unknown ids *)

Lemma filter_agree {A : Type} (P R : A -> Prop)
    `{!forall x, Decision (P x)} `{!forall x, Decision (R x)} (l : list A) :
  (forall x, x ∈ l -> P x <-> R x) -> filter P l = filter R l.
Proof.
  induction l as [|a l IH]; intros Hag; [done|].
  rewrite !filter_cons.
  rewrite IH by (intros; apply Hag; by right).
  destruct (decide (P a)) as [Ha|Ha], (decide (R a)) as [Hb|Hb]; try done.
  - by apply (Hag a) in Ha; [|left].
  - by apply (Hag a) in Hb; [|left].
Qed.

Lemma foldl_agree {S A : Type} (f g : S -> A -> S) (l : list A) :
  (forall s a, a ∈ l -> f s a = g s a) ->
  forall s, foldl f s l = foldl g s l.
Proof.
  induction l as [|a l IH]; intros H s; [done|].
  cbn [foldl]. rewrite H by left. apply IH.
  intros; apply H; by right.
Qed.

Lemma elem_of_known_paths files (l : list string) p :
  p ∈ known_paths files l <-> p ∈ l /\ is_Some (files !! p).
Proof. unfold known_paths. rewrite list_elem_of_filter. tauto. Qed.

Lemma non_activated_known files activated :
  non_activated_paths files (known_paths files activated)
    = non_activated_paths files activated.
Proof.
  unfold non_activated_paths. apply filter_agree.
  intros p Hp%elem_of_keys. rewrite elem_of_known_paths. tauto.
Qed.

Lemma boost_loop_known files0 config (l : list string) :
  forall (fs : gmap string CognitiveFile) (ds : gmap string Q),
    (forall p, is_Some (fs !! p) <-> is_Some (files0 !! p)) ->
    foldl (boost_file config) (fs, ds) l
      = foldl (boost_file config) (fs, ds) (known_paths files0 l).
Proof.
  induction l as [|a l IH]; intros fs ds Hdom; [done|].
  unfold known_paths. rewrite filter_cons. fold (known_paths files0 l).
  cbn [foldl]. destruct (decide (is_Some (files0 !! a))) as [Ha|Ha].
  - cbn [foldl]. unfold boost_file at 2 4.
    apply Hdom in Ha as [f Hf]. rewrite Hf. apply IH.
    intros p. rewrite lookup_insert_is_Some', <- Hdom.
    split; [intros [<-|?]; [by rewrite Hf | done] | by right].
  - unfold boost_file at 2.
    destruct (fs !! a) eqn:Hf; [|by apply IH].
    destruct Ha. apply Hdom. by rewrite Hf.
Qed.

Lemma boost_loop_unregistered config (l : list string) :
  forall (fs : gmap string CognitiveFile) (ds : gmap string Q) p,
    fs !! p = None ->
    (foldl (boost_file config) (fs, ds) l).2 !! p = ds !! p.
Proof.
  induction l as [|a l IH]; intros fs ds p Hp; [done|].
  cbn [foldl]. unfold boost_file at 2.
  destruct (fs !! a) as [f|] eqn:Hf; [|by apply IH].
  assert (a ≠ p) by congruence.
  rewrite IH by by rewrite lookup_insert_ne.
  by rewrite lookup_insert_ne.
Qed.

Lemma drain_phase_unregistered files activated config tb fs ds p :
  drain_non_activated files activated config tb = Ok (fs, ds) ->
  files !! p = None -> ds !! p = None.
Proof.
  unfold drain_non_activated. intros Hrun Hp.
  destruct (enable_conservation config); [|by inversion Hrun].
  destruct (non_activated_paths files activated) as [|a l] eqn:Hna;
    [by inversion Hrun|].
  rewrite <- Hna in Hrun.
  destruct (py_div tb _) as [d|]; [|done]. cbn [mbind result_bind] in Hrun.
  destruct (drain_loop d (non_activated_paths files activated) files ∅)
    as (fs' & ds' & Hrun' & Hlook).
  { apply non_activated_NoDup. }
  { intros q Hq. by apply elem_of_non_activated in Hq as [_ ?]. }
  rewrite Hrun' in Hrun. inversion Hrun; subst fs' ds'.
  destruct (Hlook p) as [_ ->]. rewrite Hp.
  by destruct (decide _).
Qed.

Lemma apply_activation_unregistered files activated config files' deltas p :
  apply_activation files activated config = Ok (files', deltas) ->
  files !! p = None ->
  files' !! p = None /\ deltas !! p = None.
Proof.
  intros Hrun Hp.
  destruct activated as [|a l] eqn:Hact.
  { inversion Hrun; subst. by rewrite lookup_empty. }
  rewrite <- Hact in *.
  destruct (apply_activation_lookup files activated config)
    as (files2 & deltas2 & Hrun2 & Hlook); [by rewrite Hact|].
  rewrite Hrun in Hrun2. inversion Hrun2; subst files2 deltas2. split.
  - rewrite Hlook, Hp. destruct (decide _); [done|].
    by destruct (enable_conservation config).
  - destruct (drain_phase files activated config) as (fs & ds & Hd & Hfs).
    assert (apply_activation files activated config =
              Ok (foldl (boost_file config) (fs, ds) activated)) as Heq.
    { rewrite Hact. unfold apply_activation. rewrite <- Hact. by rewrite Hd. }
    rewrite Hrun in Heq. inversion Heq as [Hst].
    change deltas with (files', deltas).2. rewrite Hst.
    rewrite boost_loop_unregistered.
    + by apply (drain_phase_unregistered _ _ _ _ _ _ _ Hd).
    + rewrite Hfs, Hp. destruct (decide _); [done|].
      by destruct (enable_conservation config).
Qed.

Lemma apply_activation_known files activated config :
  enable_conservation config = false
  \/ non_activated_paths files activated = [] ->
  apply_activation files activated config
    = apply_activation files (known_paths files activated) config.
Proof.
  intros Hcond.
  assert (forall l tb,
            non_activated_paths files l = non_activated_paths files activated ->
            drain_non_activated files l config tb = Ok (files, ∅)) as Hdrain.
  { intros l tb Hl. unfold drain_non_activated. rewrite Hl.
    destruct Hcond as [-> | ->]; [done|].
    by destruct (enable_conservation config). }
  assert (forall l,
            non_activated_paths files l = non_activated_paths files activated ->
            apply_activation files l config
              = Ok (foldl (boost_file config) (files, ∅) l)) as Hrun.
  { intros l Hl. destruct l as [|a l]; [done|].
    unfold apply_activation. by rewrite Hdrain. }
  rewrite (Hrun activated), (Hrun (known_paths files activated))
    by (done || apply non_activated_known).
  f_equal. by apply boost_loop_known.
Qed.

Lemma outgoing_of_known_edges files adjacency s :
  outgoing_of (known_edges files adjacency) s
    = filter (fun t => is_Some (files !! t)) (outgoing_of adjacency s).
Proof.
  unfold outgoing_of, known_edges. rewrite lookup_fmap.
  destruct (adjacency !! s); [done|]. cbn.
  symmetry. apply set_eq. intros t. rewrite elem_of_filter.
  split; [by intros [_ ?] | by intros ?%not_elem_of_empty].
Qed.

Lemma send_loop_unregistered files ew config src bf (l : list string) :
  (forall t, t ∈ l -> files !! t = None) ->
  forall deltas, foldl (send_flow files ew config src bf) deltas l = deltas.
Proof.
  induction l as [|a l IH]; intros H deltas; [done|].
  cbn [foldl]. unfold send_flow at 2. rewrite (H a) by left.
  apply IH. intros; apply H; by right.
Qed.

Lemma source_deltas_known_edges files adjacency ew config deltas s f :
  (sends config f = true ->
   (forall t, t ∈ outgoing_of adjacency s -> is_Some (files !! t))
   \/ (forall t, t ∈ outgoing_of adjacency s -> files !! t = None)) ->
  source_deltas files adjacency ew config deltas (s, f)
    = source_deltas files (known_edges files adjacency) ew config deltas (s, f).
Proof.
  intros Hmix. unfold source_deltas. cbn [fst snd].
  destruct (sends config f); [|done].
  rewrite outgoing_of_known_edges.
  destruct (Hmix eq_refl) as [Hall|Hnone].
  - assert (filter (fun t => is_Some (files !! t)) (outgoing_of adjacency s)
            = outgoing_of adjacency s) as ->; [|done].
    apply set_eq. intros t. rewrite elem_of_filter.
    split; [by intros [_ ?] | intros Ht; split; [by apply Hall | done]].
  - assert (filter (fun t => is_Some (files !! t)) (outgoing_of adjacency s)
            = ∅) as ->.
    { apply set_eq. intros t. rewrite elem_of_filter.
      split; [|by intros ?%not_elem_of_empty].
      intros [[g Hg] Ht]. rewrite (Hnone t Ht) in Hg. done. }
    rewrite elements_empty. cbn [foldl].
    apply send_loop_unregistered.
    intros t Ht%elem_of_elements. by apply Hnone.
Qed.

Lemma propagate_pressure_known_edges files adjacency ew config :
  (forall s f, files !! s = Some f -> sends config f = true ->
     (forall t, t ∈ outgoing_of adjacency s -> is_Some (files !! t))
     \/ (forall t, t ∈ outgoing_of adjacency s -> files !! t = None)) ->
  propagate_pressure files adjacency ew config
    = propagate_pressure files (known_edges files adjacency) ew config.
Proof.
  intros Hmix. rewrite !propagate_pressure_pure. cbn zeta.
  assert (foldl (source_deltas files adjacency ew config) ∅ (map_to_list files)
          = foldl (source_deltas files (known_edges files adjacency) ew config)
                  ∅ (map_to_list files)) as ->; [|done].
  apply foldl_agree. intros d [s f] Hin%elem_of_map_to_list.
  apply source_deltas_known_edges. by apply Hmix.
Qed.

Lemma occurrences_known files (l : list string) p :
  is_Some (files !! p) ->
  occurrences p (known_paths files l) = occurrences p l.
Proof.
  intros Hp. induction l as [|a l IH]; [done|].
  unfold known_paths. rewrite filter_cons. fold (known_paths files l).
  destruct (decide (is_Some (files !! a))) as [Ha|Ha].
  - rewrite !occurrences_cons. by destruct (decide (a = p)); rewrite IH.
  - rewrite occurrences_cons, decide_False; [done|]. by intros ->.
Qed.

Lemma apply_activation_listed_known
    files activated config files1 deltas1 files2 deltas2 p :
  apply_activation files activated config = Ok (files1, deltas1) ->
  apply_activation files (known_paths files activated) config
    = Ok (files2, deltas2) ->
  p ∈ activated ->
  files1 !! p = files2 !! p.
Proof.
  intros Hrun1 Hrun2 Hp.
  destruct (files !! p) as [f|] eqn:Hf.
  2:{ destruct (apply_activation_unregistered _ _ _ _ _ p Hrun1 Hf) as [-> _].
      by destruct (apply_activation_unregistered _ _ _ _ _ p Hrun2 Hf)
        as [-> _]. }
  assert (p ∈ known_paths files activated) as Hk
    by (apply elem_of_known_paths; by rewrite Hf).
  destruct (apply_activation_lookup files activated config)
    as (fs1 & ds1 & Hr1 & Hlook1).
  { intros ->. by apply elem_of_nil in Hp. }
  destruct (apply_activation_lookup files (known_paths files activated) config)
    as (fs2 & ds2 & Hr2 & Hlook2).
  { intros Hnil. rewrite Hnil in Hk. by apply elem_of_nil in Hk. }
  rewrite Hrun1 in Hr1. injection Hr1 as <- <-.
  rewrite Hrun2 in Hr2. injection Hr2 as <- <-.
  rewrite Hlook1, Hlook2, !decide_True, Hf by done.
  by rewrite occurrences_known by by rewrite Hf.
Qed.

(** C7 (amended). Unknown-id handling.  [apply_activation] and
    [propagate_pressure] never raise, whatever unregistered ids the
    activation list and the adjacency mention; an unregistered id gets no
    entry in the file map and none in the deltas.  Every listed file ends
    in the same state whether or not unregistered ids are listed with it,
    and with conservation disabled, or with no registered file left
    non-activated, so does the whole result.  In [propagate_pressure] an
    unregistered target receives nothing and still counts in
    [len(outgoing)], the per-edge divisor: the result equals the result on
    the adjacency with the unregistered targets removed when no sending
    source has both registered and unregistered targets. *)
Theorem unknown_ids_skipped files activated adjacency edge_weights config :
  (exists st, apply_activation files activated config = Ok st)
  /\ (exists st,
        propagate_pressure files adjacency edge_weights config = Ok st)
  /\ (forall files' deltas p,
        apply_activation files activated config = Ok (files', deltas) ->
        files !! p = None ->
        files' !! p = None /\ deltas !! p = None)
  /\ (forall files' deltas p,
        propagate_pressure files adjacency edge_weights config
          = Ok (files', deltas) ->
        files !! p = None ->
        files' !! p = None /\ deltas !! p = None)
  /\ (forall files1 deltas1 files2 deltas2 p,
        apply_activation files activated config = Ok (files1, deltas1) ->
        apply_activation files (known_paths files activated) config
          = Ok (files2, deltas2) ->
        p ∈ activated ->
        files1 !! p = files2 !! p)
  /\ (enable_conservation config = false
      \/ non_activated_paths files activated = [] ->
      apply_activation files activated config
        = apply_activation files (known_paths files activated) config)
  /\ ((forall s f, files !! s = Some f -> sends config f = true ->
         (forall t, t ∈ outgoing_of adjacency s -> is_Some (files !! t))
         \/ (forall t, t ∈ outgoing_of adjacency s -> files !! t = None)) ->
      propagate_pressure files adjacency edge_weights config
        = propagate_pressure files (known_edges files adjacency)
            edge_weights config).
Proof.
  split; [apply apply_activation_total|].
  split; [apply propagate_pressure_total|].
  split; [intros files' deltas p; apply apply_activation_unregistered|].
  split; [|split; [apply apply_activation_listed_known
                  |split; [apply apply_activation_known
                          | apply propagate_pressure_known_edges]]].
  intros files' deltas p Hrun Hp.
  rewrite propagate_pressure_pure in Hrun. cbn zeta in Hrun.
  inversion Hrun; subst files' deltas.
  assert (foldl (source_deltas files adjacency edge_weights config) ∅
                (map_to_list files) !! p = None) as Hd
    by by apply propagate_deltas_registered.
  by rewrite final_pass, Hd.
Qed.

(** ** Bucket consistency *)

Lemma iter_boosted_consistent config (n : nat) f :
  pressure_bucket f = quantize_pressure (raw_pressure f) ->
  pressure_bucket (Nat.iter n (boosted config) f)
    = quantize_pressure (raw_pressure (Nat.iter n (boosted config) f)).
Proof. intros Hf. by destruct n. Qed.

Lemma apply_activation_consistent files activated config :
  bucket_consistent files ->
  exists files' deltas,
    apply_activation files activated config = Ok (files', deltas)
    /\ bucket_consistent files'.
Proof.
  intros Hc. destruct activated as [|a l] eqn:Hact; [by eexists _, _|].
  rewrite <- Hact.
  destruct (apply_activation_lookup files activated config)
    as (files' & deltas & Hrun & Hlook); [by rewrite Hact|].
  exists files', deltas. split; [done|].
  intros p f'. rewrite Hlook.
  destruct (files !! p) as [f|] eqn:Hf.
  2:{ destruct (decide _); [done|]. by destruct (enable_conservation config). }
  specialize (Hc p f Hf).
  destruct (decide _).
  - intros [= <-]. by apply iter_boosted_consistent.
  - destruct (enable_conservation config); intros [= <-]; done.
Qed.

Lemma propagate_pressure_consistent files adjacency ew config :
  bucket_consistent files ->
  exists files' deltas,
    propagate_pressure files adjacency ew config = Ok (files', deltas)
    /\ bucket_consistent files'.
Proof.
  intros Hc. rewrite propagate_pressure_pure. cbn zeta.
  eexists _, _. split; [done|].
  intros p f'. rewrite final_pass.
  destruct (_ !! p) as [d|]; [|apply Hc].
  destruct (files !! p); [|done]. by intros [= <-].
Qed.

Lemma apply_decay_consistent files t config :
  bucket_consistent files -> bucket_consistent (apply_decay files t config).1.
Proof.
  intros Hc p f'. rewrite apply_decay_files.
  destruct (files !! p) as [f|] eqn:Hf; [|done].
  specialize (Hc p f Hf). cbn. destruct (decide _); by intros [= <-].
Qed.

Lemma redistribute_pressure_consistent files config files' :
  bucket_consistent files ->
  redistribute_pressure files config = Ok files' ->
  bucket_consistent files'.
Proof.
  intros Hc. unfold redistribute_pressure.
  destruct (enable_conservation config); cbn [negb]; [|by intros [= <-]].
  assert (forall g, bucket_consistent (update_all g files)) as Hup.
  { intros g p f'. rewrite update_all_fmap, lookup_fmap.
    destruct (files !! p); [|done]. by intros [= <-]. }
  destruct (Qeq_bool _ _); destruct (py_div _ _); cbn; try done;
    intros [= <-]; apply Hup.
Qed.

Lemma redistribute_pressure_returns files config :
  files <> ∅ -> exists files', redistribute_pressure files config = Ok files'.
Proof.
  intros Hne. unfold redistribute_pressure.
  destruct (enable_conservation config); cbn [negb]; [|by eexists].
  destruct (Qeq_bool _ _) eqn:Hz.
  - rewrite py_div_Ok by by apply len_Q_size_nonzero. by eexists.
  - apply Qeq_bool_neq in Hz. rewrite py_div_Ok by done. by eexists.
Qed.

(** C8. Bucket consistency invariant: from a file map in which every
    pressure_bucket equals quantize_pressure(raw_pressure), each of
    [apply_activation], [propagate_pressure] and [apply_decay] returns a
    file map with the same property, and so does [redistribute_pressure]
    whenever it returns, which it does on every non-empty file map. *)
Theorem bucket_consistency_preserved files :
  bucket_consistent files ->
  (forall activated config,
     exists files' deltas,
       apply_activation files activated config = Ok (files', deltas)
       /\ bucket_consistent files')
  /\ (forall adjacency edge_weights config,
        exists files' deltas,
          propagate_pressure files adjacency edge_weights config
            = Ok (files', deltas)
          /\ bucket_consistent files')
  /\ (forall current_turn config,
        bucket_consistent (apply_decay files current_turn config).1)
  /\ (forall config files',
        redistribute_pressure files config = Ok files' ->
        bucket_consistent files')
  /\ (forall config, files <> ∅ ->
        exists files', redistribute_pressure files config = Ok files').
Proof.
  intros Hc. repeat split.
  - intros. by apply apply_activation_consistent.
  - intros. by apply propagate_pressure_consistent.
  - intros. by apply apply_decay_consistent.
  - intros config files'. by apply redistribute_pressure_consistent.
  - intros. by apply redistribute_pressure_returns.
Qed.


(** ** Boundedness *)

Lemma clamp_low_bounded (x : Q) : x <= 1 -> 0 <= Qmax 0 x <= 1.
Proof. intros Hx. destruct (Q.max_spec 0 x) as [[? ->]|[? ->]]; lra. Qed.

Lemma clamp_high_bounded (x : Q) : 0 <= x -> 0 <= Qmin 1 x <= 1.
Proof. intros Hx. destruct (Q.min_spec 1 x) as [[? ->]|[? ->]]; lra. Qed.

Lemma clamp_bounded (x : Q) : 0 <= Qmax 0 (Qmin 1 x) <= 1.
Proof.
  apply clamp_low_bounded.
  destruct (Q.min_spec 1 x) as [[? ->]|[? ->]]; lra.
Qed.

Lemma drain_share_nonneg files activated config :
  0 <= activation_boost config -> 0 <= drain_share files activated config.
Proof.
  intros Hb. unfold drain_share, Qdiv.
  assert (forall n, 0 <= len_Q n) as Hlen.
  { intros n. unfold len_Q. change 0 with (inject_Z 0).
    rewrite <- Zle_Qle. lia. }
  apply Qmult_le_0_compat; [apply Qmult_le_0_compat; auto|].
  apply Qinv_le_0_compat, Hlen.
Qed.

Lemma iter_boosted_bounded config (n : nat) f :
  0 <= activation_boost config ->
  0 <= raw_pressure f <= 1 ->
  0 <= raw_pressure (Nat.iter n (boosted config) f) <= 1.
Proof.
  intros Hb Hf. induction n as [|n IH]; [done|].
  rewrite Nat.iter_succ. cbn [boosted set_pressure raw_pressure].
  apply clamp_high_bounded. lra.
Qed.

Lemma apply_activation_bounded files activated config :
  0 <= activation_boost config ->
  bounded files ->
  exists files' deltas,
    apply_activation files activated config = Ok (files', deltas)
    /\ bounded files'.
Proof.
  intros Hb Hbd. destruct activated as [|a l] eqn:Hact; [by eexists _, _|].
  rewrite <- Hact.
  destruct (apply_activation_lookup files activated config)
    as (files' & deltas & Hrun & Hlook); [by rewrite Hact|].
  exists files', deltas. split; [done|].
  intros p f'. rewrite Hlook.
  destruct (files !! p) as [f|] eqn:Hf.
  2:{ destruct (decide _); [done|]. by destruct (enable_conservation config). }
  specialize (Hbd p f Hf).
  destruct (decide _).
  - intros [= <-]. by apply iter_boosted_bounded.
  - destruct (enable_conservation config); intros [= <-]; [|done].
    cbn [drained set_pressure raw_pressure].
    apply clamp_low_bounded.
    pose proof (drain_share_nonneg files activated config Hb). lra.
Qed.

Lemma propagate_pressure_bounded files adjacency ew config :
  bounded files ->
  exists files' deltas,
    propagate_pressure files adjacency ew config = Ok (files', deltas)
    /\ bounded files'.
Proof.
  intros Hbd. rewrite propagate_pressure_pure. cbn zeta.
  eexists _, _. split; [done|].
  intros p f'. rewrite final_pass.
  destruct (_ !! p) as [d|]; [|apply Hbd].
  destruct (files !! p); [|done]. intros [= <-].
  apply clamp_bounded.
Qed.

Lemma apply_decay_bounded files t config :
  0 <= decay_rate config <= 1 ->
  bounded files -> bounded (apply_decay files t config).1.
Proof.
  intros Hr Hbd p f'. rewrite apply_decay_files.
  destruct (files !! p) as [f|] eqn:Hf; [|done].
  specialize (Hbd p f Hf). cbn. destruct (decide _); intros [= <-]; [done|].
  cbn [decayed set_pressure raw_pressure]. nra.
Qed.

Lemma total_nonneg files : bounded files -> 0 <= total_raw_pressure files.
Proof.
  intros Hbd. unfold total_raw_pressure.
  assert (py_sum ((fun _ : CognitiveFile => 0) <$> (map_to_list files).*2) == 0)
    as <- by (rewrite py_sum_const; ring).
  apply py_sum_le. intros f Hf.
  apply list_elem_of_fmap in Hf as [[k f'] [-> Hin]].
  apply elem_of_map_to_list in Hin. by apply (Hbd k).
Qed.

(** The rescaling branch of [redistribute_pressure] keeps the bound. *)
Lemma redistribute_scale_bounded files config :
  0 <= total_pressure_budget config ->
  bounded files ->
  ~ total_raw_pressure files == 0 ->
  exists files',
    redistribute_pressure files config = Ok files' /\ bounded files'.
Proof.
  intros Hb Hbd Hnz. unfold redistribute_pressure.
  destruct (enable_conservation config); cbn [negb]; [|by eexists].
  destruct (Qeq_bool _ _) eqn:Hz; [by apply Qeq_bool_iff in Hz|].
  rewrite py_div_Ok by done. cbn.
  eexists; split; [done|].
  intros p f'. rewrite update_all_fmap, lookup_fmap.
  destruct (files !! p) as [f|] eqn:Hf; [|done]. intros [= <-].
  cbn [set_pressure raw_pressure].
  apply clamp_high_bounded.
  pose proof (total_nonneg files Hbd) as Ht.
  specialize (Hbd p f Hf).
  apply Qmult_le_0_compat; [lra|].
  apply Qle_shift_div_l; lra.
Qed.

(** C1 (the defect). The even-redistribution branch is not clamped: when
    the total pressure is exactly zero on a non-empty file map and
    conservation is enabled, every file receives
    [total_pressure_budget / len(files)], which exceeds 1.0 whenever the
    budget is larger than the number of files (the default budget is
    10.0), although the rescaling branch next to it clamps at 1.0. *)
Theorem redistribute_even_branch_unbounded files config :
  files <> ∅ ->
  enable_conservation config = true ->
  total_raw_pressure files == 0 ->
  len_Q (size files) < total_pressure_budget config ->
  exists files',
    redistribute_pressure files config = Ok files'
    /\ (forall p, is_Some (files' !! p) <-> is_Some (files !! p))
    /\ (forall p f', files' !! p = Some f' ->
          raw_pressure f' = total_pressure_budget config / len_Q (size files)
          /\ 1 < raw_pressure f').
Proof.
  intros Hne Hcons Hz Hbig. unfold redistribute_pressure.
  rewrite Hcons. cbn [negb].
  apply Qeq_bool_iff in Hz. rewrite Hz.
  pose proof (len_Q_size_nonzero files Hne) as Hlen.
  rewrite py_div_Ok by done. cbn.
  eexists; split; [done|]. rewrite update_all_fmap. split.
  - intros p. rewrite lookup_fmap. by rewrite fmap_is_Some.
  - intros p f'. rewrite lookup_fmap.
    destruct (files !! p) as [f|]; [|done]. intros [= <-].
    cbn [set_pressure raw_pressure]. split; [done|].
    assert (0 < len_Q (size files)).
    { apply len_Q_pos. apply map_size_non_empty_iff in Hne. lia. }
    apply Qlt_shift_div_l; lra.
Qed.

(** ** Basin depth plays no part in apply_decay *)

(** C3 (the defect). [apply_decay] multiplies every non-immune pressure by
    the plain [decay_rate]: two non-immune files with equal raw_pressure
    end with equal raw_pressure even when the second has the deeper basin,
    so the deeper basin is not strictly higher after the decay. *)
Theorem apply_decay_ignores_basin_depth files t config p1 p2 f1 f2 :
  files !! p1 = Some f1 ->
  files !! p2 = Some f2 ->
  ~ immune t config f1 ->
  ~ immune t config f2 ->
  raw_pressure f1 = raw_pressure f2 ->
  basin_depth f1 < basin_depth f2 ->
  exists f1' f2',
    (apply_decay files t config).1 !! p1 = Some f1'
    /\ (apply_decay files t config).1 !! p2 = Some f2'
    /\ raw_pressure f1' = raw_pressure f1 * decay_rate config
    /\ raw_pressure f2' = raw_pressure f2 * decay_rate config
    /\ raw_pressure f1' = raw_pressure f2'
    /\ ~ raw_pressure f1' < raw_pressure f2'.
Proof.
  intros H1 H2 Hx1 Hx2 Heq _.
  exists (decayed config f1), (decayed config f2).
  rewrite !apply_decay_files, H1, H2. cbn.
  rewrite !decide_False by done.
  cbn [decayed set_pressure raw_pressure]. rewrite Heq.
  repeat split. apply Qlt_irrefl.
Qed.

(** ** Empty file maps and sources without edges *)

Lemma total_raw_pressure_empty : total_raw_pressure ∅ = 0.
Proof. unfold total_raw_pressure. by rewrite map_to_list_empty. Qed.

(** The guarded cases: no files, or a source with no outgoing edge. *)
Lemma guarded_edge_cases files activated adjacency ew t config deltas item :
  apply_activation ∅ activated config = Ok (∅, ∅)
  /\ propagate_pressure ∅ adjacency ew config = Ok (∅, ∅)
  /\ apply_decay ∅ t config = (∅, ∅)
  /\ (enable_conservation config = false ->
      redistribute_pressure ∅ config = Ok ∅)
  /\ get_pressure_stats ∅
       = Ok {| total_pressure := 0; avg_pressure := 0; max_pressure := 0;
               min_pressure := 0; hot_count := 0; warm_count := 0;
               cold_count := 0 |}
  /\ (outgoing_of adjacency item.1 = ∅ ->
      propagate_from files adjacency ew config deltas item = Ok deltas).
Proof.
  split; [|split; [|split; [|split; [|split]]]].
  - destruct activated as [|a l]; [done|].
    unfold apply_activation, drain_non_activated, non_activated_paths.
    rewrite map_to_list_empty. cbn [fmap list_fmap filter list_filter].
    assert (forall (l' : list string) st,
              st.1 = (∅ : gmap string CognitiveFile) ->
              foldl (boost_file config) st l' = st) as Hloop.
    { induction l' as [|b l' IH]; intros [fs ds] Hfs; [done|].
      cbn in Hfs. subst fs. cbn [foldl]. unfold boost_file at 2.
      rewrite lookup_empty. by apply IH. }
    destruct (enable_conservation config); cbn [mbind result_bind];
      by rewrite Hloop.
  - rewrite propagate_pressure_pure. cbn zeta.
    by rewrite !map_to_list_empty.
  - unfold apply_decay. by rewrite map_to_list_empty.
  - intros Hc. unfold redistribute_pressure. by rewrite Hc.
  - unfold get_pressure_stats, count_files. rewrite map_to_list_empty. cbn.
    by rewrite map_size_empty.
  - intros Hout. rewrite propagate_from_pure. unfold source_deltas.
    rewrite Hout, elements_empty. by destruct (sends config item.2).
Qed.

(** [get_pressure_stats] never raises. *)
Lemma get_pressure_stats_total files :
  exists stats, get_pressure_stats files = Ok stats.
Proof.
  unfold get_pressure_stats.
  destruct (raw_pressure <$> (map_to_list files).*2) as [|x xs] eqn:E;
    [by eexists|].
  rewrite py_div_Ok; [by eexists|].
  assert (0 < len_Q (length (x :: xs))) by (apply len_Q_pos; simpl; lia).
  lra.
Qed.

(** C6 (the defect). On an empty file map with conservation enabled,
    [redistribute_pressure] takes the zero-total branch and divides the
    budget by [len(files) = 0]: it raises ZeroDivisionError instead of
    being a no-op. *)
Theorem redistribute_empty_raises config :
  enable_conservation config = true ->
  redistribute_pressure ∅ config = Raise ZeroDivisionError.
Proof.
  intros Hc. unfold redistribute_pressure.
  rewrite Hc, total_raw_pressure_empty. cbn [negb].
  change (Qeq_bool 0 0) with true. cbv iota.
  rewrite map_size_empty. by rewrite py_div_zero.
Qed.

(** * Further properties *)

(** ** What the operations leave alone *)

Lemma same_identity_refl f : same_identity f f.
Proof. by repeat split. Qed.

Lemma same_identity_set_pressure f g x :
  same_identity f g -> same_identity f (set_pressure g x).
Proof. intros H. exact H. Qed.

Lemma same_identity_iter_boosted config (n : nat) f :
  same_identity f (Nat.iter n (boosted config) f).
Proof.
  induction n as [|n IH]; [apply same_identity_refl|].
  rewrite Nat.iter_succ. by apply same_identity_set_pressure.
Qed.

Lemma frame_kept_pointwise (files files' : gmap string CognitiveFile)
    (h : string -> CognitiveFile -> CognitiveFile) :
  (forall p, files' !! p = h p <$> files !! p) ->
  (forall p f, same_identity f (h p f)) ->
  frame_kept files files'.
Proof.
  intros Hlook Hid p. rewrite Hlook.
  destruct (files !! p) as [f|]; [apply Hid | done].
Qed.

(** X1. Frame: [apply_activation], [propagate_pressure], [apply_decay] and
    [redistribute_pressure] never add or remove a key of the file map and
    never change a field of a file other than raw_pressure and
    pressure_bucket; in particular [apply_activation] does not touch
    last_activated or activation_count. *)
Theorem only_pressure_changes (files : gmap string CognitiveFile) :
  (forall activated config files' deltas,
     apply_activation files activated config = Ok (files', deltas) ->
     frame_kept files files')
  /\ (forall adjacency edge_weights config files' deltas,
        propagate_pressure files adjacency edge_weights config
          = Ok (files', deltas) ->
        frame_kept files files')
  /\ (forall current_turn config,
        frame_kept files (apply_decay files current_turn config).1)
  /\ (forall config files',
        redistribute_pressure files config = Ok files' ->
        frame_kept files files').
Proof.
  split; [|split; [|split]].
  - intros activated config files' deltas Hrun.
    destruct activated as [|a l] eqn:Hact.
    { inversion Hrun; subst. intros p.
      destruct (files' !! p); [by repeat split | done]. }
    rewrite <- Hact in *.
    destruct (apply_activation_lookup files activated config)
      as (files2 & deltas2 & Hrun2 & Hlook); [by rewrite Hact|].
    rewrite Hrun in Hrun2. inversion Hrun2; subst files2 deltas2.
    apply (frame_kept_pointwise files files'
             (fun p f =>
                if decide (p ∈ activated)
                then Nat.iter (occurrences p activated) (boosted config) f
                else if enable_conservation config
                     then drained (drain_share files activated config) f
                     else f)).
    + intros p. rewrite Hlook. destruct (decide _); [done|].
      destruct (enable_conservation config); [done|].
      by destruct (files !! p).
    + intros p f. destruct (decide _);
        [apply same_identity_iter_boosted|].
      destruct (enable_conservation config); by repeat split.
  - intros adjacency ew config files' deltas Hrun.
    rewrite propagate_pressure_pure in Hrun. cbn zeta in Hrun.
    inversion Hrun; subst files' deltas. intros p. rewrite final_pass.
    destruct (files !! p) as [f|];
      destruct (foldl _ _ _ !! p) as [d|]; cbn; try done; by repeat split.
  - intros t config.
    apply (frame_kept_pointwise _ _
             (fun _ f => if decide (immune t config f) then f
                         else decayed config f)).
    + intros p. apply apply_decay_files.
    + intros p f. destruct (decide _); by repeat split.
  - intros config files'. unfold redistribute_pressure.
    assert (forall g, frame_kept files (update_all g files)) as Hup.
    { intros g.
      apply (frame_kept_pointwise _ _ (fun _ f => set_pressure f (g f))).
      - intros p. by rewrite update_all_fmap, lookup_fmap.
      - intros p f. by repeat split. }
    destruct (enable_conservation config); cbn [negb].
    + destruct (Qeq_bool _ _); destruct (py_div _ _); cbn; try done;
        intros [= <-]; apply Hup.
    + intros [= <-]. intros p.
      destruct (files !! p); [by repeat split | done].
Qed.

(** ** Bounds and direction of change *)

Lemma boosted_grows config f :
  0 <= activation_boost config -> raw_pressure f <= 1 ->
  raw_pressure f <= raw_pressure (boosted config f).
Proof.
  intros Hb Hf. cbn [boosted set_pressure raw_pressure].
  destruct (Q.min_spec 1 (raw_pressure f + activation_boost config))
    as [[? ->]|[? ->]]; lra.
Qed.

Lemma iter_boosted_grows config (n : nat) f :
  0 <= activation_boost config -> 0 <= raw_pressure f <= 1 ->
  raw_pressure f <= raw_pressure (Nat.iter n (boosted config) f).
Proof.
  intros Hb Hf. induction n as [|n IH]; [apply Qle_refl|].
  rewrite Nat.iter_succ.
  pose proof (iter_boosted_bounded config n f Hb Hf) as Hbd.
  pose proof (boosted_grows config (Nat.iter n (boosted config) f) Hb) as Hg.
  lra.
Qed.

Lemma drained_shrinks d f :
  0 <= d -> 0 <= raw_pressure f ->
  raw_pressure (drained d f) <= raw_pressure f.
Proof.
  intros Hd Hf. cbn [drained set_pressure raw_pressure].
  destruct (Q.max_spec 0 (raw_pressure f - d)) as [[? ->]|[? ->]]; lra.
Qed.

(** X2. Activation with a non-negative boost, on pressures in [0, 1]:
    the result is again in [0, 1], no listed file loses pressure and no
    unlisted file gains any ("boosting one cools others"). *)
Theorem apply_activation_boosts_and_cools files activated config :
  0 <= activation_boost config ->
  bounded files ->
  exists files' deltas,
    apply_activation files activated config = Ok (files', deltas)
    /\ bounded files'
    /\ (forall p f f', files !! p = Some f -> files' !! p = Some f' ->
          (p ∈ activated -> raw_pressure f <= raw_pressure f')
          /\ (p ∉ activated -> raw_pressure f' <= raw_pressure f)).
Proof.
  intros Hb Hbd. destruct activated as [|a l] eqn:Hact.
  { exists files, ∅. split; [done|]. split; [done|].
    intros p f f' Hf Hf'. rewrite Hf in Hf'. injection Hf' as <-.
    split; intros _; apply Qle_refl. }
  rewrite <- Hact.
  destruct (apply_activation_lookup files activated config)
    as (files' & deltas & Hrun & Hlook); [by rewrite Hact|].
  pose proof (drain_share_nonneg files activated config Hb) as Hd.
  exists files', deltas. split; [done|]. split.
  - intros p f'. rewrite Hlook.
    destruct (files !! p) as [f|] eqn:Hf.
    2:{ destruct (decide _); [done|].
        by destruct (enable_conservation config). }
    specialize (Hbd p f Hf). destruct (decide _).
    + intros [= <-]. by apply iter_boosted_bounded.
    + destruct (enable_conservation config); intros [= <-]; [|done].
      cbn [drained set_pressure raw_pressure]. apply clamp_low_bounded. lra.
  - intros p f f' Hf. rewrite Hlook, Hf. specialize (Hbd p f Hf).
    destruct (decide (p ∈ activated)) as [Hp|Hp]; cbn.
    + intros [= <-]. split; [|done]. intros _. by apply iter_boosted_grows.
    + destruct (enable_conservation config); intros [= <-];
        (split; [done|]); intros _; [|apply Qle_refl].
      apply drained_shrinks; lra.
Qed.

(** X3. Propagation clamps: whatever the pressures before the call, every
    file that has an entry in the returned deltas ends in [0, 1], and every
    file without an entry is returned as it was; so pressures in [0, 1]
    stay in [0, 1] under every configuration. *)
Theorem propagate_pressure_clamps files adjacency edge_weights config :
  exists files' deltas,
    propagate_pressure files adjacency edge_weights config
      = Ok (files', deltas)
    /\ (forall p f', files' !! p = Some f' -> is_Some (deltas !! p) ->
          0 <= raw_pressure f' <= 1)
    /\ (forall p, deltas !! p = None -> files' !! p = files !! p)
    /\ (bounded files -> bounded files').
Proof.
  rewrite propagate_pressure_pure. cbn zeta.
  eexists _, _. split; [done|]. split; [|split].
  - intros p f'. rewrite final_pass. intros Hf' [d Hd]. rewrite Hd in Hf'.
    destruct (files !! p); [|done]. injection Hf' as <-. apply clamp_bounded.
  - intros p Hd. by rewrite final_pass, Hd.
  - intros Hbd p f'. rewrite final_pass.
    destruct (_ !! p) as [d|]; [|apply Hbd].
    destruct (files !! p); [|done]. intros [= <-]. apply clamp_bounded.
Qed.

(** ** Decay *)

Lemma apply_decay_fmap (files : gmap string CognitiveFile) t config :
  (apply_decay files t config).1 =
    (fun f => if decide (immune t config f) then f else decayed config f)
      <$> files.
Proof.
  apply map_eq. intros p. by rewrite apply_decay_files, lookup_fmap.
Qed.

Lemma total_fmap (g : CognitiveFile -> CognitiveFile)
    (files : gmap string CognitiveFile) :
  total_raw_pressure (g <$> files)
    = py_sum ((fun f => raw_pressure (g f)) <$> (map_to_list files).*2).
Proof.
  unfold total_raw_pressure. rewrite map_to_list_fmap.
  f_equal. rewrite <- !list_fmap_compose.
  apply list_fmap_ext. by intros ? [k f].
Qed.

Lemma elem_of_values (files : gmap string CognitiveFile) f :
  f ∈ (map_to_list files).*2 <-> exists p, files !! p = Some f.
Proof.
  rewrite list_elem_of_fmap. split.
  - intros ([k f'] & -> & Hin). exists k. by apply elem_of_map_to_list.
  - intros [p Hp]. exists (p, f). split; [done|].
    by apply elem_of_map_to_list.
Qed.

(** X4. Decay with a rate in [0, 1], on pressures in [0, 1]: the result
    is again in [0, 1], no file gains pressure, every returned delta is
    non-positive, and the total does not grow. *)
Theorem apply_decay_never_raises_pressure files t config :
  0 <= decay_rate config <= 1 ->
  bounded files ->
  bounded (apply_decay files t config).1
  /\ (forall p f f', files !! p = Some f ->
        (apply_decay files t config).1 !! p = Some f' ->
        raw_pressure f' <= raw_pressure f)
  /\ (forall p d, (apply_decay files t config).2 !! p = Some d -> d <= 0)
  /\ total_raw_pressure (apply_decay files t config).1
       <= total_raw_pressure files.
Proof.
  intros Hr Hbd.
  assert (forall f, 0 <= raw_pressure f <= 1 ->
            raw_pressure f * decay_rate config <= raw_pressure f) as Hshrink
    by (intros f Hf; nra).
  split; [|split; [|split]].
  - intros p f'. rewrite apply_decay_files.
    destruct (files !! p) as [f|] eqn:Hf; [|done].
    specialize (Hbd p f Hf). cbn.
    destruct (decide _); intros [= <-]; [done|].
    cbn [decayed set_pressure raw_pressure]. nra.
  - intros p f f' Hf. rewrite apply_decay_files, Hf. cbn.
    specialize (Hbd p f Hf).
    destruct (decide _); intros [= <-]; [apply Qle_refl|].
    by apply Hshrink.
  - intros p d. rewrite apply_decay_deltas.
    destruct (files !! p) as [f|] eqn:Hf; [|done].
    specialize (Hbd p f Hf).
    destruct (decide _); [done|]. intros [= <-].
    cbn [decayed set_pressure raw_pressure].
    specialize (Hshrink f Hbd). lra.
  - rewrite apply_decay_fmap, total_fmap. unfold total_raw_pressure.
    apply py_sum_le. intros f [p Hf]%elem_of_values.
    specialize (Hbd p f Hf).
    destruct (decide _); [apply Qle_refl|]. by apply Hshrink.
Qed.

(** ** Conservation correction *)

Lemma py_sum_ge_elem {A : Type} (g : A -> Q) (l : list A) a :
  (forall b, b ∈ l -> 0 <= g b) -> a ∈ l -> g a <= py_sum (g <$> l).
Proof.
  induction l as [|b l IH]; intros Hpos Ha; [by apply elem_of_nil in Ha|].
  rewrite fmap_cons, py_sum_cons.
  assert (0 <= py_sum (g <$> l)) as Hrest.
  { assert (py_sum ((fun _ : A => 0) <$> l) == 0) as <-
      by (rewrite py_sum_const; ring).
    apply py_sum_le. intros c Hc. apply Hpos. by right. }
  apply elem_of_cons in Ha as [->|Ha].
  - lra.
  - assert (0 <= g b) by (apply Hpos; left).
    assert (g a <= py_sum (g <$> l))
      by (apply IH; [intros; apply Hpos; by right | done]).
    lra.
Qed.

Lemma total_positive files :
  bounded files -> ~ total_raw_pressure files == 0 ->
  0 < total_raw_pressure files.
Proof.
  intros Hbd Hnz. pose proof (total_nonneg files Hbd). lra.
Qed.

(** X5. The rescaling branch of the conservation correction, on pressures
    in [0, 1] with a non-negative budget and a non-zero total: the call
    returns, the result is in [0, 1], and the files keep their order by
    pressure. *)
Theorem redistribute_rescale_properties files config :
  enable_conservation config = true ->
  0 <= total_pressure_budget config ->
  bounded files ->
  ~ total_raw_pressure files == 0 ->
  exists files',
    redistribute_pressure files config = Ok files'
    /\ bounded files'
    /\ (forall p q f g f' g',
          files !! p = Some f -> files !! q = Some g ->
          files' !! p = Some f' -> files' !! q = Some g' ->
          raw_pressure f <= raw_pressure g ->
          raw_pressure f' <= raw_pressure g').
Proof.
  intros Hcons Hb Hbd Hnz.
  pose proof (total_positive files Hbd Hnz) as Hpos.
  unfold redistribute_pressure. rewrite Hcons. cbn [negb].
  destruct (Qeq_bool _ _) eqn:Hz; [by apply Qeq_bool_iff in Hz|].
  rewrite py_div_Ok by done. cbn.
  set (scale := total_pressure_budget config / total_raw_pressure files).
  assert (0 <= scale) as Hscale by (apply Qle_shift_div_l; lra).
  eexists; split; [done|]. split.
  - intros p f'. rewrite update_all_fmap, lookup_fmap.
    destruct (files !! p) as [f|] eqn:Hf; [|done]. intros [= <-].
    cbn [set_pressure raw_pressure]. apply clamp_high_bounded.
    specialize (Hbd p f Hf). apply Qmult_le_0_compat; lra.
  - intros p q f g f' g' Hf Hg.
    rewrite update_all_fmap, !lookup_fmap, Hf, Hg.
    intros [= <-] [= <-] Hle. cbn [set_pressure raw_pressure].
    apply Q.min_le_compat_l. by apply Qmult_le_compat_r.
Qed.

(** X6. A file map that already meets the budget is a fixed point of the
    conservation correction: when the map is non-empty, its pressures are
    in [0, 1] and their total equals the budget, [redistribute_pressure]
    returns and leaves every raw_pressure equal to what it was. *)
Theorem redistribute_at_budget_is_stable files config :
  files <> ∅ ->
  bounded files ->
  total_raw_pressure files == total_pressure_budget config ->
  exists files',
    redistribute_pressure files config = Ok files'
    /\ forall p f, files !! p = Some f ->
         exists f', files' !! p = Some f'
                    /\ raw_pressure f' == raw_pressure f.
Proof.
  intros Hne Hbd Htot. unfold redistribute_pressure.
  destruct (enable_conservation config); cbn [negb].
  2:{ exists files. split; [done|]. intros p f Hf. by exists f. }
  pose proof (len_Q_size_nonzero files Hne) as Hlen.
  destruct (Qeq_bool _ _) eqn:Hz.
  - apply Qeq_bool_iff in Hz. rewrite py_div_Ok by done. cbn.
    eexists; split; [done|]. intros p f Hf.
    rewrite update_all_fmap, lookup_fmap, Hf. cbn.
    eexists; split; [done|]. cbn [set_pressure raw_pressure].
    assert (raw_pressure f <= total_raw_pressure files) as Hle.
    { unfold total_raw_pressure. apply py_sum_ge_elem.
      - intros g [q Hg]%elem_of_values. by apply (Hbd q).
      - apply elem_of_values. by exists p. }
    specialize (Hbd p f Hf).
    assert (raw_pressure f == 0) as -> by lra.
    assert (total_pressure_budget config == 0) as -> by lra.
    by field.
  - apply Qeq_bool_neq in Hz. rewrite py_div_Ok by done. cbn.
    eexists; split; [done|]. intros p f Hf.
    rewrite update_all_fmap, lookup_fmap, Hf. cbn.
    eexists; split; [done|]. cbn [set_pressure raw_pressure].
    specialize (Hbd p f Hf).
    assert (raw_pressure f
              * (total_pressure_budget config / total_raw_pressure files)
            == raw_pressure f) as Heq by (rewrite <- Htot; by field).
    rewrite Heq. apply Q.min_r. lra.
Qed.

(** ** Statistics *)

Lemma Qmax_cases (x y : Q) : Qmax x y = x \/ Qmax x y = y.
Proof.
  unfold Qmax, GenericMinMax.gmax. destruct (x ?= y); auto.
Qed.

Lemma Qmin_cases (x y : Q) : Qmin x y = x \/ Qmin x y = y.
Proof.
  unfold Qmin, GenericMinMax.gmin. destruct (x ?= y); auto.
Qed.

Lemma foldl_Qmax_upper (l : list Q) :
  forall a, a <= foldl Qmax a l /\ forall x, x ∈ l -> x <= foldl Qmax a l.
Proof.
  induction l as [|y l IH]; intros a.
  - split; [apply Qle_refl|]. intros x Hx. by apply elem_of_nil in Hx.
  - cbn [foldl]. destruct (IH (Qmax a y)) as [Hacc Hall].
    pose proof (Q.le_max_l a y). pose proof (Q.le_max_r a y).
    split; [lra|]. intros x [->|Hx]%elem_of_cons; [lra | by apply Hall].
Qed.

Lemma foldl_Qmin_lower (l : list Q) :
  forall a, foldl Qmin a l <= a /\ forall x, x ∈ l -> foldl Qmin a l <= x.
Proof.
  induction l as [|y l IH]; intros a.
  - split; [apply Qle_refl|]. intros x Hx. by apply elem_of_nil in Hx.
  - cbn [foldl]. destruct (IH (Qmin a y)) as [Hacc Hall].
    pose proof (Q.le_min_l a y). pose proof (Q.le_min_r a y).
    split; [lra|]. intros x [->|Hx]%elem_of_cons; [lra | by apply Hall].
Qed.

Lemma foldl_Qmax_attained (l : list Q) : forall a, foldl Qmax a l ∈ a :: l.
Proof.
  induction l as [|y l IH]; intros a; [left|].
  cbn [foldl]. specialize (IH (Qmax a y)).
  apply elem_of_cons in IH as [->|IH]; [|by do 2 right].
  destruct (Qmax_cases a y) as [-> | ->]; [left | right; left].
Qed.

Lemma foldl_Qmin_attained (l : list Q) : forall a, foldl Qmin a l ∈ a :: l.
Proof.
  induction l as [|y l IH]; intros a; [left|].
  cbn [foldl]. specialize (IH (Qmin a y)).
  apply elem_of_cons in IH as [->|IH]; [|by do 2 right].
  destruct (Qmin_cases a y) as [-> | ->]; [left | right; left].
Qed.

Lemma filter_disjoint_length {A : Type} (P R : A -> Prop)
    `{!forall x, Decision (P x)} `{!forall x, Decision (R x)} (l : list A) :
  (forall x, P x -> R x -> False) ->
  (length (filter P l) + length (filter R l) <= length l)%nat.
Proof.
  intros Hdis. induction l as [|a l IH]; [done|].
  rewrite !filter_cons.
  destruct (decide (P a)) as [Ha|Ha], (decide (R a)) as [Hb|Hb];
    cbn [length]; try lia.
  destruct (Hdis a Ha Hb).
Qed.

Lemma in_pressures (files : gmap string CognitiveFile) (x : Q) :
  x ∈ raw_pressure <$> (map_to_list files).*2 <->
  exists p f, files !! p = Some f /\ raw_pressure f = x.
Proof.
  rewrite list_elem_of_fmap. split.
  - intros (f & -> & [p Hf]%elem_of_values). by exists p, f.
  - intros (p & f & Hf & <-). exists f. split; [done|].
    apply elem_of_values. by exists p.
Qed.

(** X7. [get_pressure_stats] never raises.  The three tier counts are
    non-negative and add up to the number of files.  On a non-empty map
    the reported minimum and maximum are pressures of actual files and
    bound every file's pressure, and the average is the total divided by
    the number of files; on the empty map average, maximum and minimum
    are 0. *)
Theorem get_pressure_stats_sound (files : gmap string CognitiveFile) :
  exists stats,
    get_pressure_stats files = Ok stats
    /\ (0 <= hot_count stats)%Z
    /\ (0 <= warm_count stats)%Z
    /\ (0 <= cold_count stats)%Z
    /\ (hot_count stats + warm_count stats + cold_count stats
        = Z.of_nat (size files))%Z
    /\ total_pressure stats = total_raw_pressure files
    /\ (files <> ∅ ->
        (forall p f, files !! p = Some f ->
           min_pressure stats <= raw_pressure f <= max_pressure stats)
        /\ (exists p f, files !! p = Some f
                        /\ raw_pressure f = max_pressure stats)
        /\ (exists p f, files !! p = Some f
                        /\ raw_pressure f = min_pressure stats)
        /\ avg_pressure stats
           = total_pressure stats / len_Q (size files))
    /\ (files = ∅ ->
        avg_pressure stats = 0 /\ max_pressure stats = 0
        /\ min_pressure stats = 0).
Proof.
  unfold get_pressure_stats, count_files.
  set (hot := fun f : CognitiveFile =>
                (HOT_THRESHOLD <=? pressure_bucket f)%Z = true).
  set (warm := fun f : CognitiveFile =>
                 (20 <=? pressure_bucket f)%Z
                 && (pressure_bucket f <? HOT_THRESHOLD)%Z = true).
  assert (length (filter hot (map_to_list files).*2)
          + length (filter warm (map_to_list files).*2) <= size files)%nat
    as Hcount.
  { rewrite <- length_values. apply filter_disjoint_length.
    unfold hot, warm. intros f Hh Hw.
    apply andb_true_iff in Hw as [_ Hw]. lia. }
  pose proof (in_pressures files) as Hin.
  assert (length (raw_pressure <$> (map_to_list files).*2) = size files)
    as Hlen by by rewrite length_fmap, length_values.
  assert (py_sum (raw_pressure <$> (map_to_list files).*2)
          = total_raw_pressure files) as Htot by done.
  revert Hin Hlen Htot.
  generalize (raw_pressure <$> (map_to_list files).*2). intros xs Hin Hlen Htot.
  destruct xs as [|x xs].
  - cbn. eexists. split; [done|]. cbn.
    repeat (split; [lia || done|]).
    split; [|done]. intros Hne%map_size_non_empty_iff. cbn in Hlen. lia.
  - rewrite py_div_Ok.
    2:{ assert (0 < len_Q (length (x :: xs)))
          by (apply len_Q_pos; cbn; lia). lra. }
    cbn. eexists. split; [done|]. cbn.
    repeat (split; [lia || done|]).
    split.
    2:{ intros ->. rewrite map_size_empty in Hlen. cbn in Hlen. lia. }
    intros _.
    destruct (foldl_Qmax_upper xs x) as [Hmx0 Hmx].
    destruct (foldl_Qmin_lower xs x) as [Hmn0 Hmn].
    split; [|split; [|split]].
    + intros p f Hf.
      assert (raw_pressure f ∈ x :: xs) as [->|Hx]%elem_of_cons
        by (apply Hin; by exists p, f).
      * done.
      * split; [by apply Hmn | by apply Hmx].
    + apply Hin, foldl_Qmax_attained.
    + apply Hin, foldl_Qmin_attained.
    + by rewrite <- Hlen.
Qed.

(** ** Propagation *)

Lemma foldl_idle {S A : Type} (f : S -> A -> S) (l : list A) (s : S) :
  (forall a, a ∈ l -> f s a = s) -> foldl f s l = s.
Proof.
  induction l as [|a l IH]; intros H; [done|].
  cbn [foldl]. rewrite H by left. apply IH. intros; apply H; by right.
Qed.

(** X8. Propagation is a no-op, returning the file map unchanged and an
    empty delta map, when every registered file is either held back by the
    gate ([hot_propagates] set and its pressure below
    [min_pressure_to_propagate]) or has no registered target. *)
Theorem propagate_pressure_idle files adjacency edge_weights config :
  (forall p f, files !! p = Some f ->
     (hot_propagates config = true
      /\ raw_pressure f < min_pressure_to_propagate config)
     \/ (forall t, t ∈ outgoing_of adjacency p -> files !! t = None)) ->
  propagate_pressure files adjacency edge_weights config = Ok (files, ∅).
Proof.
  intros Hidle. rewrite propagate_pressure_pure. cbn zeta.
  rewrite (foldl_idle (source_deltas files adjacency edge_weights config)).
  - by rewrite map_to_list_empty.
  - intros [s f] Hin%elem_of_map_to_list.
    unfold source_deltas. cbn [fst snd].
    destruct (Hidle s f Hin) as [Hgate|Hnone].
    + apply sends_false_iff in Hgate. by rewrite Hgate.
    + destruct (sends config f); [|done].
      apply send_loop_unregistered.
      intros t Ht%elem_of_elements. by apply Hnone.
Qed.

(** ** Activation *)

(** *** The deltas that apply_activation returns *)

Lemma boost_loop_deltas config (l : list string) :
  NoDup l ->
  forall (fs : gmap string CognitiveFile) (ds : gmap string Q) p,
    (foldl (boost_file config) (fs, ds) l).2 !! p =
      if decide (p ∈ l)
      then match fs !! p with
           | Some f => Some (raw_pressure (boosted config f) - raw_pressure f)
           | None => ds !! p
           end
      else ds !! p.
Proof.
  induction l as [|a l IH]; intros Hnd fs ds p.
  - cbn [foldl]. rewrite decide_False; [done | apply not_elem_of_nil].
  - apply NoDup_cons in Hnd as [Ha Hnd].
    cbn [foldl]. unfold boost_file at 2.
    destruct (fs !! a) as [f|] eqn:Hf.
    + fold (boosted config f). rewrite IH by done.
      destruct (decide (a = p)) as [->|Hne].
      * rewrite (decide_False (P := p ∈ l)) by done.
        rewrite (decide_True (P := p ∈ p :: l)) by left.
        by rewrite lookup_insert_eq, Hf.
      * rewrite !lookup_insert_ne by done.
        destruct (decide (p ∈ l)) as [Hp|Hp].
        -- rewrite decide_True; [done | by right].
        -- rewrite decide_False; [done|].
           intros [->|?]%elem_of_cons; done.
    + rewrite IH by done.
      destruct (decide (a = p)) as [->|Hne].
      * rewrite (decide_False (P := p ∈ l)) by done.
        rewrite (decide_True (P := p ∈ p :: l)) by left.
        by rewrite Hf.
      * destruct (decide (p ∈ l)) as [Hp|Hp].
        -- rewrite decide_True; [done | by right].
        -- rewrite decide_False; [done|].
           intros [->|?]%elem_of_cons; done.
Qed.

Lemma drain_phase_deltas files activated config fs ds p :
  drain_non_activated files activated config
    (len_Q (length activated) * activation_boost config) = Ok (fs, ds) ->
  ds !! p =
    if decide (p ∈ activated) then None
    else if enable_conservation config
         then (fun f => raw_pressure
                          (drained (drain_share files activated config) f)
                        - raw_pressure f) <$> files !! p
         else None.
Proof.
  unfold drain_non_activated. intros Hrun.
  destruct (enable_conservation config).
  2:{ injection Hrun as <- <-. rewrite lookup_empty. by destruct (decide _). }
  destruct (non_activated_paths files activated) as [|a l] eqn:Hna.
  - injection Hrun as <- <-. rewrite lookup_empty.
    destruct (decide _) as [|Hp]; [done|].
    destruct (files !! p) as [f|] eqn:Hf; [|done].
    assert (p ∈ non_activated_paths files activated) as Hin
      by by apply elem_of_non_activated.
    rewrite Hna in Hin. by apply elem_of_nil in Hin.
  - rewrite <- Hna in Hrun.
    rewrite py_div_Ok in Hrun.
    2:{ assert (0 < len_Q (length (non_activated_paths files activated))).
        { apply len_Q_pos. rewrite Hna. simpl. lia. }
        lra. }
    cbn [mbind result_bind] in Hrun.
    fold (drain_share files activated config) in Hrun.
    destruct (drain_loop (drain_share files activated config)
                (non_activated_paths files activated) files ∅)
      as (fs' & ds' & Hrun' & Hlook).
    { apply non_activated_NoDup. }
    { intros q Hq. by apply elem_of_non_activated in Hq as [_ ?]. }
    rewrite Hrun' in Hrun. injection Hrun as <- <-.
    destruct (Hlook p) as [_ ->].
    destruct (decide (p ∈ activated)) as [Hp|Hp].
    + rewrite decide_False; [by rewrite lookup_empty|].
      rewrite elem_of_non_activated. tauto.
    + destruct (files !! p) as [f|] eqn:Hf.
      * rewrite decide_True; [done|]. by apply elem_of_non_activated.
      * destruct (decide _); [done | by rewrite lookup_empty].
Qed.

(** X11. The deltas returned by [apply_activation] for a non-empty,
    duplicate-free activation list account exactly for what changed: a
    registered file has an entry when it is listed or conservation is
    enabled, the entry is its new raw_pressure minus the old one, and no
    other key has an entry. *)
Theorem apply_activation_deltas files activated config :
  activated <> [] ->
  NoDup activated ->
  exists files' deltas,
    apply_activation files activated config = Ok (files', deltas)
    /\ forall p,
         deltas !! p =
           match files !! p, files' !! p with
           | Some f, Some f' =>
               if bool_decide (p ∈ activated) || enable_conservation config
               then Some (raw_pressure f' - raw_pressure f)
               else None
           | _, _ => None
           end.
Proof.
  intros Hne Hnd.
  destruct (drain_phase files activated config) as (fs & ds & Hd & Hfs).
  assert (apply_activation files activated config =
            Ok (foldl (boost_file config) (fs, ds) activated)) as Hrun.
  { destruct activated; [done|]. unfold apply_activation. by rewrite Hd. }
  destruct (foldl (boost_file config) (fs, ds) activated)
    as [files' deltas] eqn:E.
  exists files', deltas. split; [done|]. intros p.
  change deltas with (files', deltas).2.
  change files' with (files', deltas).1 at 2.
  rewrite <- E, boost_loop_deltas, boost_loop by done.
  rewrite (drain_phase_deltas _ _ _ _ _ p Hd), Hfs.
  destruct (decide (p ∈ activated)) as [Hp|Hp].
  - rewrite bool_decide_eq_true_2 by done. cbn [orb].
    rewrite occurrences_NoDup by done.
    by destruct (files !! p).
  - rewrite bool_decide_eq_false_2 by done. cbn [orb].
    rewrite occurrences_0 by done.
    destruct (enable_conservation config); by destruct (files !! p).
Qed.

(** ** Decay over several turns *)

(** X12. Once outside the immunity window, always decaying: a file that
    is not immune at turn [t] is still registered after [n] consecutive
    calls of [apply_decay], with its path, last_activated, counters and
    basin_depth untouched, it is not immune at turn [t + n] either, and
    the next call multiplies its raw_pressure by [decay_rate] once more.
    For a rate in [0, 1] and a non-negative pressure, the pressure after
    the [n] calls is non-negative and at most the initial one. *)
Theorem decay_outside_window_persists (n : nat) :
  forall files t config p f,
    files !! p = Some f ->
    ~ immune t config f ->
    exists f_n,
      decay_turns n files t config !! p = Some f_n
      /\ same_identity f f_n
      /\ ~ immune (t + Z.of_nat n) config f_n
      /\ decay_turns (S n) files t config !! p = Some (decayed config f_n)
      /\ (0 <= decay_rate config <= 1 -> 0 <= raw_pressure f ->
          0 <= raw_pressure f_n <= raw_pressure f).
Proof.
  induction n as [|n IH]; intros files t config p f Hf Hex.
  - exists f. split; [done|]. split; [apply same_identity_refl|].
    split; [by rewrite Z.add_0_r|]. split.
    + cbn [decay_turns]. rewrite apply_decay_files, Hf. cbn.
      by rewrite decide_False.
    + intros _ Hpos. split; [done | apply Qle_refl].
  - assert ((apply_decay files t config).1 !! p = Some (decayed config f))
      as Hstep by by rewrite apply_decay_files, Hf; cbn; rewrite decide_False.
    assert (~ immune (t + 1) config (decayed config f)) as Hex'.
    { unfold immune in *. cbn [decayed set_pressure last_activated]. lia. }
    destruct (IH _ (t + 1)%Z config p _ Hstep Hex')
      as (f_n & Hlook & Hid & Him & Hnext & Hle).
    exists f_n. split; [done|]. split.
    { destruct Hid as (H1 & H2 & H3 & H4 & H5 & H6).
      by repeat split. }
    split.
    { by replace (t + Z.of_nat (S n))%Z with (t + 1 + Z.of_nat n)%Z by lia. }
    split; [done|].
    intros Hrate Hpos.
    assert (0 <= raw_pressure (decayed config f) <= raw_pressure f) as Hd
      by (cbn [decayed set_pressure raw_pressure]; nra).
    destruct (Hle Hrate (proj1 Hd)). lra.
Qed.

End Pressure.
(** * The statements run on the sample data *)

(** C9 on the sample data: at turn 10 fresh.md (activated at turn 9) is
    immune and untouched; deep.md (activated at turn 0) is decayed. *)
Lemma apply_decay_immunity_frame_witness :
  (basin3 !! "fresh.md" = Some (mk_file "fresh.md" (9 # 10) 9 1)
   /\ immune 10 default_config (mk_file "fresh.md" (9 # 10) 9 1)
   /\ (apply_decay quantize_48 basin3 10 default_config).1 !! "fresh.md"
        = Some (mk_file "fresh.md" (9 # 10) 9 1)
   /\ (apply_decay quantize_48 basin3 10 default_config).2 !! "fresh.md" = None)
  /\
  (basin3 !! "deep.md" = Some (mk_file "deep.md" (9 # 10) 0 (25 # 10))
   /\ ~ immune 10 default_config (mk_file "deep.md" (9 # 10) 0 (25 # 10))
   /\ exists f',
        (apply_decay quantize_48 basin3 10 default_config).1 !! "deep.md"
          = Some f'
        /\ raw_pressure f' = (9 # 10) * (85 # 100)).
Proof.
  split.
  - assert (basin3 !! "fresh.md" = Some (mk_file "fresh.md" (9 # 10) 9 1))
      as Hf by run.
    assert (immune 10 default_config (mk_file "fresh.md" (9 # 10) 9 1))
      as Him by run.
    destruct (apply_decay_immunity_frame quantize_48 basin3 10 default_config
                "fresh.md" _ Hf) as [Hfr _].
    destruct (Hfr Him) as [H1 H2].
    exact (conj Hf (conj Him (conj H1 H2))).
  - assert (basin3 !! "deep.md" = Some (mk_file "deep.md" (9 # 10) 0 (25 # 10)))
      as Hf by run.
    assert (~ immune 10 default_config (mk_file "deep.md" (9 # 10) 0 (25 # 10)))
      as Hex by (vm_compute; discriminate).
    destruct (apply_decay_immunity_frame quantize_48 basin3 10 default_config
                "deep.md" _ Hf) as [_ Hdec].
    destruct (Hdec Hex) as (f' & H1 & H2 & _).
    exact (conj Hf (conj Hex (ex_intro _ f' (conj H1 H2)))).
Defined.

(** C2 (the defect). The conservation correction drops what the clamp
    cuts off.  Three files at 0.9, 0.1 and 0.1 with a budget of 1.5, which
    three pressures in [0, 1] can hold: the scale is 1.5 / 1.1, the first
    file is clamped at 1.0 and the other two become 3/22 (about 0.136), so
    the sum after the call is 14/11 (about 1.27), more than 0.2 short of
    the budget. *)
Theorem redistribute_drops_clamped_excess (quantize_pressure : Q -> Z) :
  clamp3 <> ∅
  /\ bounded clamp3
  /\ enable_conservation small_budget_config = true
  /\ total_pressure_budget small_budget_config <= len_Q (size clamp3)
  /\ exists total,
       total_after
         (redistribute_pressure quantize_pressure clamp3 small_budget_config)
         = Some total
       /\ total < 13 # 10
       /\ 2 # 10 < total_pressure_budget small_budget_config - total
       /\ ~ Qabs (total - total_pressure_budget small_budget_config)
            < 1 # 1000000.
Proof.
  split; [non_empty|].
  split; [intros p f Hf; lookup_cases Hf; split; vm_compute; discriminate|].
  split; [reflexivity|].
  split; [vm_compute; discriminate|].
  eexists. split; [run|]. split; [run|].
  split; [run | vm_compute; discriminate].
Qed.

(** C1 on the sample data: three files at zero pressure under the default
    configuration all end at 10/3. *)
Lemma redistribute_even_branch_unbounded_witness :
  zero3 <> ∅
  /\ enable_conservation default_config = true
  /\ total_raw_pressure zero3 == 0
  /\ len_Q (size zero3) < total_pressure_budget default_config
  /\ bounded zero3
  /\ exists files' f',
       redistribute_pressure quantize_48 zero3 default_config = Ok files'
       /\ files' !! "a" = Some f'
       /\ raw_pressure f' = 10 / len_Q 3
       /\ 1 < raw_pressure f'.
Proof.
  assert (zero3 <> ∅) as Hne by non_empty.
  assert (total_raw_pressure zero3 == 0) as Hz by run.
  assert (len_Q (size zero3) < total_pressure_budget default_config)
    as Hbig by run.
  assert (bounded zero3) as Hbd.
  { intros p f Hf. lookup_cases Hf; split; vm_compute; discriminate. }
  destruct (redistribute_even_branch_unbounded quantize_48 zero3
              default_config Hne eq_refl Hz Hbig)
    as (files' & Hrun & Hdom & Hval).
  assert (is_Some (files' !! "a")) as [f' Hf'].
  { apply Hdom. exists (mk_file "a" 0 0 1). run. }
  destruct (Hval "a" f' Hf') as [Heq Hgt].
  exact (conj Hne (conj eq_refl (conj Hz (conj Hbig (conj Hbd
           (ex_intro _ files' (ex_intro _ f'
              (conj Hrun (conj Hf' (conj Heq Hgt)))))))))).
Defined.

(** C3 on the input of test_basin_stickiness: shallow.md (depth 1.0) and
    deep.md (depth 2.5) both go from 0.9 to 0.9 * 0.85. *)
Lemma apply_decay_ignores_basin_depth_witness :
  exists f1' f2',
    (apply_decay quantize_48 basin3 10 default_config).1 !! "shallow.md"
      = Some f1'
    /\ (apply_decay quantize_48 basin3 10 default_config).1 !! "deep.md"
         = Some f2'
    /\ raw_pressure f1' = (9 # 10) * (85 # 100)
    /\ raw_pressure f2' = (9 # 10) * (85 # 100)
    /\ ~ raw_pressure f1' < raw_pressure f2'.
Proof.
  assert (basin3 !! "shallow.md" = Some (mk_file "shallow.md" (9 # 10) 0 1))
    as H1 by run.
  assert (basin3 !! "deep.md" = Some (mk_file "deep.md" (9 # 10) 0 (25 # 10)))
    as H2 by run.
  assert (~ immune 10 default_config (mk_file "shallow.md" (9 # 10) 0 1))
    as Hx1 by (vm_compute; discriminate).
  assert (~ immune 10 default_config (mk_file "deep.md" (9 # 10) 0 (25 # 10)))
    as Hx2 by (vm_compute; discriminate).
  assert (basin_depth (mk_file "shallow.md" (9 # 10) 0 1)
          < basin_depth (mk_file "deep.md" (9 # 10) 0 (25 # 10)))
    as Hdepth by run.
  destruct (apply_decay_ignores_basin_depth quantize_48 basin3 10
              default_config "shallow.md" "deep.md" _ _
              H1 H2 Hx1 Hx2 eq_refl Hdepth)
    as (f1' & f2' & Hl1 & Hl2 & Hr1 & Hr2 & _ & Hnlt).
  exact (ex_intro _ f1' (ex_intro _ f2'
           (conj Hl1 (conj Hl2 (conj Hr1 (conj Hr2 Hnlt)))))).
Defined.

(** C6 on the default configuration. *)
Lemma redistribute_empty_raises_witness :
  enable_conservation default_config = true
  /\ redistribute_pressure quantize_48 ∅ default_config
       = Raise ZeroDivisionError.
Proof.
  exact (conj eq_refl
           (redistribute_empty_raises quantize_48 default_config eq_refl)).
Defined.

(** C4 on the sample data: activating "a" among two files at 0.5 boosts
    "a" to min(1, 0.5 + 0.4) and drains "b" to max(0, 0.5 - 0.4 / 1). *)
Lemma apply_activation_semantics_witness :
  exists files' deltas fa fb,
    apply_activation quantize_48 half2 ["a"] default_config
      = Ok (files', deltas)
    /\ files' !! "a" = Some fa
    /\ raw_pressure fa = Qmin 1 ((1 # 2) + (4 # 10))
    /\ files' !! "b" = Some fb
    /\ raw_pressure fb
         = Qmax 0 ((1 # 2) - len_Q 1 * (4 # 10)
                             / len_Q (length (non_activated_paths half2 ["a"])))
    /\ files' !! "zzz" = None.
Proof.
  destruct (apply_activation_semantics quantize_48 half2 ["a"] default_config)
    as (_ & files' & deltas & Hrun & Hact & Hnon & Hunk).
  assert (half2 !! "a" = Some (mk_file "a" (1 # 2) 0 1)) as Ha by run.
  assert (half2 !! "b" = Some (mk_file "b" (1 # 2) 0 1)) as Hb by run.
  assert ("a" ∈ ["a"]) as Hin by left.
  assert ("b" ∉ ["a"]) as Hout.
  { intros [H|H]%elem_of_cons; [discriminate | by apply elem_of_nil in H]. }
  assert (NoDup ["a"]) as Hnd.
  { apply NoDup_cons. split; [apply not_elem_of_nil | apply NoDup_nil_2]. }
  destruct (Hact "a" _ Ha Hin) as [_ Hboost].
  destruct (Hboost Hnd) as (fa & Hfa & Hra).
  destruct (Hnon "b" _ Hb Hout) as (fb & Hfb & Hrb); [discriminate|].
  assert (half2 !! "zzz" = None) as Hz by run.
  exact (ex_intro _ files' (ex_intro _ deltas (ex_intro _ fa (ex_intro _ fb
           (conj Hrun (conj Hfa (conj Hra (conj Hfb (conj Hrb
              (Hunk "zzz" Hz)))))))))).
Defined.

(** C5 on the sample data: "a" (0.9) has the edges a -> b and a -> zz, "b"
    (0.1) has the edge b -> a.  Under the default configuration "b" is
    below the threshold and sends nothing; "a" sends 0.15 / 2 to "b". *)
Lemma propagate_pressure_semantics_witness :
  exists files' deltas,
    propagate_pressure quantize_48 skew2 edges_mixed None default_config
      = Ok (files', deltas)
    /\ flow skew2 edges_mixed None default_config "b" "a" = 0
    /\ flow skew2 edges_mixed None default_config "a" "b"
         == (15 # 100) / len_Q 2 * 1
    /\ delta_of deltas "a"
         == inflow skew2 edges_mixed None default_config "a"
            - outflow skew2 edges_mixed None default_config "a".
Proof.
  destruct (propagate_pressure_semantics quantize_48 skew2 edges_mixed None
              default_config)
    as (files' & deltas & Hrun & Hdelta & _ & Hflow & _).
  assert (skew2 !! "a" = Some (mk_file "a" (9 # 10) 0 1)) as Ha by run.
  assert (skew2 !! "b" = Some (mk_file "b" (1 # 10) 0 1)) as Hb by run.
  destruct (Hflow "b" _ "a" Hb) as [Hgated _].
  destruct (Hflow "a" _ "b" Ha) as [_ Hsent].
  assert (raw_pressure (mk_file "b" (1 # 10) 0 1)
          < min_pressure_to_propagate default_config) as Hlow by run.
  assert (min_pressure_to_propagate default_config
          <= raw_pressure (mk_file "a" (9 # 10) 0 1)) as Hhot
    by (vm_compute; discriminate).
  assert ("b" ∈ outgoing_of edges_mixed "a") as Hedge by run.
  assert (size (outgoing_of edges_mixed "a") = 2%nat) as Hsz by run.
  specialize (Hsent (or_intror Hhot) Hedge (ex_intro _ _ Hb)).
  rewrite Hsz in Hsent.
  exact (ex_intro _ files' (ex_intro _ deltas
           (conj Hrun (conj (Hgated eq_refl Hlow) (conj Hsent (Hdelta "a")))))).
Defined.

(** C5 as stated fails: with [hot_propagates] cleared, "a" at 0.1, far
    below the threshold of 0.8, still sends 0.15 to "b". *)
Lemma propagate_below_threshold_sends :
  exists fa da db pb,
    cold2 !! "a" = Some fa
    /\ raw_pressure fa < min_pressure_to_propagate ungated_config
    /\ delta_after (propagate_pressure quantize_48 cold2 edges_ab None
                      ungated_config) "a" = Some da
    /\ delta_after (propagate_pressure quantize_48 cold2 edges_ab None
                      ungated_config) "b" = Some db
    /\ pressure_after (propagate_pressure quantize_48 cold2 edges_ab None
                         ungated_config) "b" = Some pb
    /\ da == - (15 # 100) /\ db == 15 # 100 /\ pb == 65 # 100.
Proof.
  exists (mk_file "a" (1 # 10) 0 1). eexists _, _, _.
  split; [run|]. split; [run|]. split; [run|]. split; [run|]. split; [run|].
  split; [run|]. split; run.
Qed.

(** C10 on the sample data: "a" has the registered target "b" and the
    unregistered target "zz"; "zz" gets nothing, "b" gets 0.15 / 2, and
    "a" sends less than 0.15 in all. *)
Lemma unregistered_target_in_divisor_witness :
  exists files' deltas,
    propagate_pressure quantize_48 skew2 edges_mixed None default_config
      = Ok (files', deltas)
    /\ deltas !! "zz" = None
    /\ files' !! "zz" = None
    /\ flow skew2 edges_mixed None default_config "a" "zz" = 0
    /\ flow skew2 edges_mixed None default_config "a" "b"
         == (15 # 100) / len_Q 2 * 1
    /\ outflow skew2 edges_mixed None default_config "a" < 15 # 100.
Proof.
  assert (skew2 !! "a" = Some (mk_file "a" (9 # 10) 0 1)) as Ha by run.
  assert (skew2 !! "b" = Some (mk_file "b" (1 # 10) 0 1)) as Hb by run.
  assert (sends default_config (mk_file "a" (9 # 10) 0 1) = true)
    as Hgate by run.
  assert ("zz" ∈ outgoing_of edges_mixed "a") as Hu by run.
  assert ("b" ∈ outgoing_of edges_mixed "a") as Hedge by run.
  assert (skew2 !! "zz" = None) as Hnone by run.
  assert (size (outgoing_of edges_mixed "a") = 2%nat) as Hsz by run.
  destruct (unregistered_target_in_divisor quantize_48 skew2 edges_mixed None
              default_config "a" _ "zz" eq_refl Ha Hgate Hu Hnone)
    as (files' & deltas & Hrun & Hdu & Hfu & Hflow0 & _ & Hflow & _ & Hout).
  specialize (Hflow "b" Hedge (ex_intro _ _ Hb)). rewrite Hsz in Hflow.
  destruct (Hout eq_refl) as [_ Hlt]; [run|].
  exact (ex_intro _ files' (ex_intro _ deltas
           (conj Hrun (conj Hdu (conj Hfu (conj Hflow0 (conj Hflow Hlt))))))).
Defined.

(** C7 on the sample data, with conservation disabled.  Both files are
    above the threshold and send: "a" reaches the unregistered target "zz",
    its only one, and "b" reaches the registered target "a".  Listing the
    unknown id "zzz" next to "a", and keeping the edge a -> zz, change
    nothing. *)
Lemma unknown_ids_skipped_witness :
  sends free_config (mk_file "a" (9 # 10) 0 1) = true
  /\ "zz" ∈ outgoing_of edges_split "a"
  /\ hot2 !! "zz" = None
  /\ sends free_config (mk_file "b" (85 # 100) 0 1) = true
  /\ "a" ∈ outgoing_of edges_split "b"
  /\ (exists st, apply_activation quantize_48 hot2 ["a"; "zzz"] free_config
                   = Ok st)
  /\ known_paths hot2 ["a"; "zzz"] = ["a"]
  /\ apply_activation quantize_48 hot2 ["a"; "zzz"] free_config
       = apply_activation quantize_48 hot2 ["a"] free_config
  /\ propagate_pressure quantize_48 hot2 edges_split None free_config
       = propagate_pressure quantize_48 hot2
           (known_edges hot2 edges_split) None free_config.
Proof.
  assert (outgoing_of edges_split "a" = {["zz"]}) as Hout_a by run.
  assert (outgoing_of edges_split "b" = {["a"]}) as Hout_b by run.
  assert (hot2 !! "zz" = None) as Hzz by run.
  assert (hot2 !! "a" = Some (mk_file "a" (9 # 10) 0 1)) as Ha by run.
  assert (forall s f, hot2 !! s = Some f -> sends free_config f = true ->
            (forall t, t ∈ outgoing_of edges_split s -> is_Some (hot2 !! t))
            \/ (forall t, t ∈ outgoing_of edges_split s -> hot2 !! t = None))
    as Hmix.
  { intros s f Hf _. lookup_cases Hf.
    - right. intros t Ht. rewrite Hout_a in Ht.
      apply elem_of_singleton in Ht. rewrite Ht. exact Hzz.
    - left. intros t Ht. rewrite Hout_b in Ht.
      apply elem_of_singleton in Ht. rewrite Ht.
      exact (ex_intro _ _ Ha). }
  assert ("zz" ∈ outgoing_of edges_split "a") as Hin_a
    by (rewrite Hout_a; by apply elem_of_singleton).
  assert ("a" ∈ outgoing_of edges_split "b") as Hin_b
    by (rewrite Hout_b; by apply elem_of_singleton).
  assert (sends free_config (mk_file "a" (9 # 10) 0 1) = true) as Hsa by run.
  assert (sends free_config (mk_file "b" (85 # 100) 0 1) = true) as Hsb
    by run.
  destruct (unknown_ids_skipped quantize_48 hot2 ["a"; "zzz"] edges_split
              None free_config)
    as (Htot & _ & _ & _ & _ & Hact & Hprop).
  assert (known_paths hot2 ["a"; "zzz"] = ["a"]) as Hknown by run.
  specialize (Hact (or_introl eq_refl)). rewrite Hknown in Hact.
  exact (conj Hsa (conj Hin_a (conj Hzz (conj Hsb (conj Hin_b
           (conj Htot (conj Hknown (conj Hact (Hprop Hmix))))))))).
Defined.

(** C7 as stated fails in [propagate_pressure]: "a" (0.9) sends 0.15 / 2 to
    "b" (0.1) when the unregistered target "zz" is among its two edges, and
    0.15 when that edge is removed, so "b" ends at 0.175 in one case and
    at 0.25 in the other. *)
Lemma unregistered_target_changes_the_flow :
  skew2 !! "zz" = None
  /\ "zz" ∈ outgoing_of edges_mixed "a"
  /\ exists with_unknown without_unknown,
       pressure_after
         (propagate_pressure quantize_48 skew2 edges_mixed None default_config)
         "b" = Some with_unknown
       /\ pressure_after
            (propagate_pressure quantize_48 skew2
               (known_edges skew2 edges_mixed) None default_config) "b"
            = Some without_unknown
       /\ with_unknown <= 18 # 100 /\ 24 # 100 <= without_unknown.
Proof.
  split; [run|]. split; [run|].
  eexists _, _. split; [run|]. split; [run|].
  split; vm_compute; discriminate.
Qed.

(** The drain of [apply_activation] is charged for every listed id,
    registered or not (line 72), although line 75 announces a drain "to
    maintain conservation" and the boost loop skips unregistered ids: with
    "a" at 0.1 and "b" at 0.9, listing "a" and the unknown "zzz" boosts "a"
    by 0.4 and drains "b" by 0.8 (total 1.0 to 0.6, nothing clamped), while
    listing "a" alone drains "b" by 0.4 (total unchanged). *)
Lemma apply_activation_charges_unknown_ids :
  exists a1 b1 a2 b2,
    pressure_after
      (apply_activation quantize_48 lean2 ["a"; "zzz"] default_config) "a"
      = Some a1
    /\ pressure_after
         (apply_activation quantize_48 lean2 ["a"; "zzz"] default_config) "b"
         = Some b1
    /\ pressure_after
         (apply_activation quantize_48 lean2 ["a"] default_config) "a"
         = Some a2
    /\ pressure_after
         (apply_activation quantize_48 lean2 ["a"] default_config) "b"
         = Some b2
    /\ a1 == a2 /\ b1 <= 2 # 10 /\ 4 # 10 <= b2.
Proof.
  eexists _, _, _, _.
  split; [run|]. split; [run|]. split; [run|]. split; [run|].
  split; [run|]. split; vm_compute; discriminate.
Qed.

(** C8 on the sample data. *)
Lemma bucket_consistency_preserved_witness :
  bucket_consistent quantize_48 half2
  /\ (exists files' deltas,
        apply_activation quantize_48 half2 ["a"] default_config
          = Ok (files', deltas)
        /\ bucket_consistent quantize_48 files')
  /\ bucket_consistent quantize_48
       (apply_decay quantize_48 half2 10 default_config).1.
Proof.
  assert (bucket_consistent quantize_48 half2) as Hc.
  { intros p f Hf. lookup_cases Hf; run. }
  destruct (bucket_consistency_preserved quantize_48 half2 Hc)
    as (Hact & _ & Hdec & _).
  exact (conj Hc (conj (Hact ["a"] default_config) (Hdec 10%Z default_config))).
Defined.

(** ** The further properties run on the sample data *)

Ltac in_unit_interval :=
  let p := fresh "p" in
  let f := fresh "f" in
  let Hf := fresh "Hf" in
  intros p f Hf; lookup_cases Hf; split; vm_compute; discriminate.

(** X1 on the sample data. *)
Lemma only_pressure_changes_witness :
  (exists files' deltas,
     apply_activation quantize_48 half2 ["a"] default_config
       = Ok (files', deltas)
     /\ frame_kept half2 files')
  /\ frame_kept half2 (apply_decay quantize_48 half2 10 default_config).1.
Proof.
  destruct (only_pressure_changes quantize_48 half2)
    as (Hact & _ & Hdec & _).
  destruct (apply_activation_total quantize_48 half2 ["a"] default_config)
    as [[files' deltas] Hrun].
  exact (conj (ex_intro _ files' (ex_intro _ deltas
                 (conj Hrun (Hact _ _ _ _ Hrun))))
              (Hdec 10%Z default_config)).
Defined.

(** X2 on the sample data. *)
Lemma apply_activation_boosts_and_cools_witness :
  0 <= activation_boost default_config
  /\ bounded half2
  /\ exists files' deltas,
       apply_activation quantize_48 half2 ["a"] default_config
         = Ok (files', deltas)
       /\ bounded files'.
Proof.
  assert (0 <= activation_boost default_config) as Hb
    by (vm_compute; discriminate).
  assert (bounded half2) as Hbd by in_unit_interval.
  destruct (apply_activation_boosts_and_cools quantize_48 half2 ["a"]
              default_config Hb Hbd) as (files' & deltas & Hrun & Hbd' & _).
  exact (conj Hb (conj Hbd (ex_intro _ files' (ex_intro _ deltas
           (conj Hrun Hbd'))))).
Defined.

(** X3 on the sample data. *)
Lemma propagate_pressure_clamps_witness :
  bounded skew2
  /\ exists files' deltas,
       propagate_pressure quantize_48 skew2 edges_mixed None default_config
         = Ok (files', deltas)
       /\ bounded files'.
Proof.
  assert (bounded skew2) as Hbd by in_unit_interval.
  destruct (propagate_pressure_clamps quantize_48 skew2 edges_mixed None
              default_config) as (files' & deltas & Hrun & _ & _ & Hkeep).
  exact (conj Hbd (ex_intro _ files' (ex_intro _ deltas
           (conj Hrun (Hkeep Hbd))))).
Defined.

(** X4 on the sample data. *)
Lemma apply_decay_never_raises_pressure_witness :
  0 <= decay_rate default_config <= 1
  /\ bounded basin3
  /\ bounded (apply_decay quantize_48 basin3 10 default_config).1
  /\ total_raw_pressure (apply_decay quantize_48 basin3 10 default_config).1
       <= total_raw_pressure basin3.
Proof.
  assert (0 <= decay_rate default_config <= 1) as Hr
    by (split; vm_compute; discriminate).
  assert (bounded basin3) as Hbd by in_unit_interval.
  destruct (apply_decay_never_raises_pressure quantize_48 basin3 10
              default_config Hr Hbd) as (Hbd' & _ & _ & Htot).
  exact (conj Hr (conj Hbd (conj Hbd' Htot))).
Defined.

(** X5 on the sample data. *)
Lemma redistribute_rescale_properties_witness :
  0 <= total_pressure_budget default_config
  /\ bounded skew2
  /\ ~ total_raw_pressure skew2 == 0
  /\ exists files',
       redistribute_pressure quantize_48 skew2 default_config = Ok files'
       /\ bounded files'.
Proof.
  assert (0 <= total_pressure_budget default_config) as Hb
    by (vm_compute; discriminate).
  assert (bounded skew2) as Hbd by in_unit_interval.
  assert (~ total_raw_pressure skew2 == 0) as Hnz
    by (vm_compute; discriminate).
  destruct (redistribute_rescale_properties quantize_48 skew2 default_config
              eq_refl Hb Hbd Hnz) as (files' & Hrun & Hbd' & _).
  exact (conj Hb (conj Hbd (conj Hnz
           (ex_intro _ files' (conj Hrun Hbd'))))).
Defined.

(** X6 on the sample data: two files at 0.5 and a budget of 1.0. *)
Lemma redistribute_at_budget_is_stable_witness :
  half2 <> ∅
  /\ bounded half2
  /\ total_raw_pressure half2 == total_pressure_budget unit_budget_config
  /\ exists files' f',
       redistribute_pressure quantize_48 half2 unit_budget_config = Ok files'
       /\ files' !! "a" = Some f'
       /\ raw_pressure f' == 1 # 2.
Proof.
  assert (half2 <> ∅) as Hne by non_empty.
  assert (bounded half2) as Hbd by in_unit_interval.
  assert (total_raw_pressure half2
          == total_pressure_budget unit_budget_config) as Htot by run.
  destruct (redistribute_at_budget_is_stable quantize_48 half2
              unit_budget_config Hne Hbd Htot) as (files' & Hrun & Hsame).
  assert (half2 !! "a" = Some (mk_file "a" (1 # 2) 0 1)) as Ha by run.
  destruct (Hsame "a" _ Ha) as (f' & Hf' & Hraw).
  exact (conj Hne (conj Hbd (conj Htot
           (ex_intro _ files' (ex_intro _ f'
              (conj Hrun (conj Hf' Hraw))))))).
Defined.

(** X7 on the sample data, with the HOT tier starting at bucket 40. *)
Lemma get_pressure_stats_sound_witness :
  half2 <> ∅
  /\ exists stats,
       get_pressure_stats 40 half2 = Ok stats
       /\ (hot_count stats + warm_count stats + cold_count stats
           = Z.of_nat (size half2))%Z
       /\ avg_pressure stats = total_pressure stats / len_Q (size half2).
Proof.
  assert (half2 <> ∅) as Hne by non_empty.
  destruct (get_pressure_stats_sound 40 half2)
    as (stats & Hrun & _ & _ & _ & Hsum & _ & Hfull & _).
  destruct (Hfull Hne) as (_ & _ & _ & Havg).
  exact (conj Hne (ex_intro _ stats (conj Hrun (conj Hsum Havg)))).
Defined.

(** X8 on the sample data: both files are below the threshold. *)
Lemma propagate_pressure_idle_witness :
  (forall p f, cold2 !! p = Some f ->
     (hot_propagates default_config = true
      /\ raw_pressure f < min_pressure_to_propagate default_config)
     \/ (forall t, t ∈ outgoing_of edges_ab p -> cold2 !! t = None))
  /\ propagate_pressure quantize_48 cold2 edges_ab None default_config
       = Ok (cold2, ∅).
Proof.
  assert (forall p f, cold2 !! p = Some f ->
            (hot_propagates default_config = true
             /\ raw_pressure f < min_pressure_to_propagate default_config)
            \/ (forall t, t ∈ outgoing_of edges_ab p -> cold2 !! t = None))
    as Hidle.
  { intros p f Hf. left. lookup_cases Hf; split; run. }
  exact (conj Hidle
           (propagate_pressure_idle quantize_48 cold2 edges_ab None
              default_config Hidle)).
Defined.

(** X11 on the sample data. *)
Lemma apply_activation_deltas_witness :
  ["a"] <> [] /\ NoDup ["a"]
  /\ exists files' deltas,
       apply_activation quantize_48 half2 ["a"] default_config
         = Ok (files', deltas)
       /\ deltas !! "zzz" = None.
Proof.
  assert (NoDup ["a"]) as Hnd.
  { apply NoDup_cons. split; [apply not_elem_of_nil | apply NoDup_nil_2]. }
  assert (["a"] <> @nil string) as Hne by discriminate.
  destruct (apply_activation_deltas quantize_48 half2 ["a"] default_config
              Hne Hnd) as (files' & deltas & Hrun & Hd).
  assert (half2 !! "zzz" = None) as Hz by run.
  assert (deltas !! "zzz" = None) as Hnone.
  { rewrite Hd, Hz. reflexivity. }
  exact (conj Hne (conj Hnd (ex_intro _ files' (ex_intro _ deltas
           (conj Hrun Hnone))))).
Defined.

(** X12 on the sample data: deep.md after two calls, at turns 10 and 11,
    and after the third. *)
Lemma decay_outside_window_persists_witness :
  basin3 !! "deep.md" = Some (mk_file "deep.md" (9 # 10) 0 (25 # 10))
  /\ ~ immune 10 default_config (mk_file "deep.md" (9 # 10) 0 (25 # 10))
  /\ exists f_n,
       decay_turns quantize_48 2 basin3 10 default_config !! "deep.md"
         = Some f_n
       /\ ~ immune 12 default_config f_n
       /\ decay_turns quantize_48 3 basin3 10 default_config !! "deep.md"
          = Some (decayed quantize_48 default_config f_n)
       /\ 0 <= raw_pressure f_n <= 9 # 10.
Proof.
  assert (basin3 !! "deep.md" = Some (mk_file "deep.md" (9 # 10) 0 (25 # 10)))
    as Hf by run.
  assert (~ immune 10 default_config (mk_file "deep.md" (9 # 10) 0 (25 # 10)))
    as Hex by (vm_compute; discriminate).
  destruct (decay_outside_window_persists quantize_48 2 basin3 10
              default_config "deep.md" _ Hf Hex)
    as (f_n & Hlook & _ & Him & Hnext & Hle).
  assert (0 <= decay_rate default_config <= 1) as Hrate
    by (split; vm_compute; discriminate).
  assert (0 <= raw_pressure (mk_file "deep.md" (9 # 10) 0 (25 # 10)))
    as Hp by (vm_compute; discriminate).
  exact (conj Hf (conj Hex (ex_intro _ f_n
           (conj Hlook (conj Him (conj Hnext (Hle Hrate Hp))))))).
Defined.
